(** * recipes.py: the recipe engine bootstrap

    A shallow embedding of [src/infra/recipes.py] and the properties of its
    manifest parser, its checkout reconciliation and its launcher.

    Conventions of the model.
    - A Python [str] is a [string]; a character stands for a code point
      below 256.
    - The platform is POSIX: [sys.platform] is fixed, so that [IS_WIN] is
      [false], [os.path] is [posixpath] and [os.path.sep] is the slash; the
      branch of [main] for Windows is embedded and not reached.
    - A value decoded by [json.load] is a [json]; a Python [dict] is an
      association list in insertion order, looked up by its first binding.
    - Everything outside the process (the files, the search path, the
      version-control tool, the environment) is reached through the
      [System] interface; the model records every call it makes. *)

From Stdlib Require Import String Ascii List ZArith Bool Lia.
From Stdlib Require Import DecimalString.
Import ListNotations.
Local Open Scope string_scope.
Local Open Scope Z_scope.

Set Implicit Arguments.
Set Warnings "-register-all".

(** ** Python strings *)

Module Str.

Definition dq : string := String (ascii_of_nat 34) EmptyString.
Definition sq : string := "'".
Definition bs : string := String (ascii_of_nat 92) EmptyString.

(** [s.startswith(p)] *)
Definition startswith (p s : string) : bool := String.prefix p s.

(** [needle in hay] on two strings *)
Fixpoint contains (needle hay : string) : bool :=
  String.prefix needle hay ||
  match hay with
  | EmptyString => false
  | String _ rest => contains needle rest
  end.

(** [c in s] for one character *)
Fixpoint has_char (c : ascii) (s : string) : bool :=
  match s with
  | EmptyString => false
  | String d rest => Ascii.eqb c d || has_char c rest
  end.

(** [s[n:]] *)
Fixpoint drop (n : nat) (s : string) : string :=
  match n, s with
  | O, _ => s
  | S n', String _ rest => drop n' rest
  | S _, EmptyString => EmptyString
  end.

(** [sep.join(l)] *)
Fixpoint join (sep : string) (l : list string) : string :=
  match l with
  | [] => EmptyString
  | [x] => x
  | x :: rest => x ++ sep ++ join sep rest
  end.

(** [s.split(c)] for a one-character separator *)
Fixpoint split (c : ascii) (s : string) : list string :=
  match s with
  | EmptyString => [EmptyString]
  | String d rest =>
      if Ascii.eqb c d then EmptyString :: split c rest
      else match split c rest with
           | [] => [String d EmptyString]
           | w :: ws => String d w :: ws
           end
  end.

Fixpoint rev_acc (s acc : string) : string :=
  match s with
  | EmptyString => acc
  | String c rest => rev_acc rest (String c acc)
  end.

Definition rev (s : string) : string := rev_acc s EmptyString.

(** drop the leading run of [c] *)
Fixpoint lstrip (c : ascii) (s : string) : string :=
  match s with
  | String d rest => if Ascii.eqb c d then lstrip c rest else s
  | EmptyString => EmptyString
  end.

(** [s.rstrip(c)] *)
Definition rstrip (c : ascii) (s : string) : string :=
  rev (lstrip c (rev s)).

(** drop up to, and not including, the first [c]; the whole string goes
    when [c] does not occur *)
Fixpoint from_char (c : ascii) (s : string) : string :=
  match s with
  | String d rest => if Ascii.eqb c d then s else from_char c rest
  | EmptyString => EmptyString
  end.

Definition is_empty (s : string) : bool :=
  match s with EmptyString => true | _ => false end.

Definition hex_digit (n : nat) : ascii :=
  nth n (list_ascii_of_string "0123456789abcdef") "0"%char.

(** the escape [\xNN] *)
Definition hex_escape (c : ascii) : string :=
  let n := nat_of_ascii c in
  bs ++ "x" ++ String (hex_digit (n / 16)) (String (hex_digit (n mod 16)) EmptyString).

(** [str.isprintable] on one code point below 256 *)
Definition printable (c : ascii) : bool :=
  let n := nat_of_ascii c in
  ((32 <=? n) && (n <? 127) || (161 <=? n) && negb (n =? 173))%nat.

Definition repr_char (quote : ascii) (c : ascii) : string :=
  if Ascii.eqb c quote || Ascii.eqb c (ascii_of_nat 92) then bs ++ String c EmptyString
  else if Ascii.eqb c (ascii_of_nat 9) then bs ++ "t"
  else if Ascii.eqb c (ascii_of_nat 10) then bs ++ "n"
  else if Ascii.eqb c (ascii_of_nat 13) then bs ++ "r"
  else if printable c then String c EmptyString
  else hex_escape c.

Fixpoint repr_body (quote : ascii) (s : string) : string :=
  match s with
  | EmptyString => EmptyString
  | String c rest => repr_char quote c ++ repr_body quote rest
  end.

(** [repr(s)]: single quotes, unless the string holds one and holds no
    double quote *)
Definition repr (s : string) : string :=
  let quote :=
    if has_char "'"%char s && negb (has_char (ascii_of_nat 34) s)
    then ascii_of_nat 34 else "'"%char in
  String quote (repr_body quote s) ++ String quote EmptyString.

(** [repr(l)] of a list of strings *)
Definition repr_list (l : list string) : string :=
  "[" ++ join ", " (map repr l) ++ "]".

(** the decimal digits of an integer, as [%d] and [str] print them *)
Definition of_Z (z : Z) : string := NilZero.string_of_int (Z.to_int z).

End Str.

(** ** posixpath *)

Module posixpath.

Definition sep : ascii := "/"%char.

Definition isabs (p : string) : bool := Str.startswith "/" p.

(** one step of [join]'s loop *)
Definition join2 (path b : string) : string :=
  if Str.startswith "/" b then b
  else if Str.is_empty path || Str.startswith "/" (Str.rev path) then path ++ b
  else path ++ "/" ++ b.

(** [os.path.join(a, *p)] *)
Definition join (a : string) (p : list string) : string :=
  fold_left join2 p a.

(** [p[:p.rfind('/') + 1]] *)
Definition head_of (p : string) : string :=
  Str.rev (Str.from_char sep (Str.rev p)).

(** [os.path.dirname(p)] *)
Definition dirname (p : string) : string :=
  let head := head_of p in
  if negb (Str.is_empty head) && negb (Str.is_empty (Str.lstrip sep head))
  then Str.rstrip sep head
  else head.

(** the loop of [normpath] over the components; [new_comps] is kept
    reversed *)
Fixpoint norm_comps (initial_slashes : nat) (comps new_comps : list string)
  : list string :=
  match comps with
  | [] => List.rev new_comps
  | comp :: rest =>
      if String.eqb comp EmptyString || String.eqb comp "." then
        norm_comps initial_slashes rest new_comps
      else if negb (String.eqb comp "..")
              || (Nat.eqb initial_slashes 0 && match new_comps with [] => true | _ => false end)
              || match new_comps with last :: _ => String.eqb last ".." | [] => false end
      then norm_comps initial_slashes rest (comp :: new_comps)
      else norm_comps initial_slashes rest (List.tl new_comps)
  end.

(** [os.path.normpath(path)] *)
Definition normpath (path : string) : string :=
  if Str.is_empty path then "." else
  let initial_slashes :=
    if Str.startswith "/" path then
      if Str.startswith "//" path && negb (Str.startswith "///" path)
      then 2%nat else 1%nat
    else 0%nat in
  let comps := norm_comps initial_slashes (Str.split sep path) [] in
  let path' := Str.join "/" comps in
  let path' :=
    match initial_slashes with
    | O => path'
    | 1%nat => "/" ++ path'
    | _ => "//" ++ path'
    end in
  if Str.is_empty path' then "." else path'.

(** [os.path.abspath(path)], with [os.getcwd()] given *)
Definition abspath (cwd path : string) : string :=
  normpath (if isabs path then path else join cwd [path]).

End posixpath.

(** ** Values decoded by [json.load] *)

(** A Python [float]: every finite one is [m * 2^e] for integers [m], [e]. *)
Inductive pyfloat : Type :=
| FNaN
| FInf (negative : bool)
| FDyadic (m e : Z).

Inductive json : Type :=
| JNull
| JBool (b : bool)
| JInt (z : Z)
| JFloat (f : pyfloat)
| JStr (s : string)
| JArr (items : list json)
| JObj (members : list (string * json)).

Definition dict : Type := list (string * json).

(** The exceptions the program raises or lets through. *)
Inductive exn : Type :=
| MalformedRecipesCfg (msg path : string)
| RequiredBinaryNotFound (msg : string)
| KeyError (key : string)
| TypeError
| AttributeError
| ValueError
| OverflowError
| JSONDecodeError
| UnicodeDecodeError
| OSError (what : string)
| CalledProcessError (returncode : Z) (cmd : list string)
| SystemExit (code : Z).

(** [MalformedRecipesCfg.__init__]: the message the exception carries. *)
Definition full_message (msg path : string) : string :=
  "malformed recipes.cfg: " ++ msg ++ ": " ++ Str.repr path.

(** [str(ex)] for the exceptions the program prints or wraps. *)
Definition str_of_exn (e : exn) : string :=
  match e with
  | MalformedRecipesCfg msg path => full_message msg path
  | RequiredBinaryNotFound msg => msg
  | KeyError key => Str.repr key
  | OSError what => what
  | _ => EmptyString
  end.

Inductive result (A : Type) : Type :=
| Ok (a : A)
| Raise (e : exn).
Arguments Raise {A} e.

Module Res.
Definition bind {A B} (r : result A) (k : A -> result B) : result B :=
  match r with
  | Ok a => k a
  | Raise e => Raise e
  end.
End Res.

Declare Scope res_scope.
Delimit Scope res_scope with res.
Notation "x <- c ; k" := (Res.bind c (fun x => k))
  (at level 61, c at next level, right associativity) : res_scope.

Module Py.

(** [d.get(key)] on a dict *)
Fixpoint lookup (d : dict) (key : string) : option json :=
  match d with
  | [] => None
  | (k, v) :: rest => if String.eqb k key then Some v else lookup rest key
  end.

(** [key in d] *)
Definition has_key (d : dict) (key : string) : bool :=
  match lookup d key with Some _ => true | None => false end.

(** [d.get(key, default)] *)
Definition get (d : dict) (key : string) (default : json) : json :=
  match lookup d key with Some v => v | None => default end.

(** [d[key]] *)
Definition getitem (d : dict) (key : string) : result json :=
  match lookup d key with Some v => Ok v | None => Raise (KeyError key) end.

(** [d[key] = v] *)
Fixpoint setitem (d : dict) (key : string) (v : json) : dict :=
  match d with
  | [] => [(key, v)]
  | (k, w) :: rest =>
      if String.eqb k key then (k, v) :: rest else (k, w) :: setitem rest key v
  end.

(** [d.setdefault(key, v)], for the dict it leaves *)
Definition setdefault (d : dict) (key : string) (v : json) : dict :=
  if has_key d key then d else (d ++ [(key, v)])%list.

(** a float equals the integer [n] *)
Definition float_is (f : pyfloat) (n : Z) : bool :=
  match f with
  | FDyadic m e => if 0 <=? e then m * 2 ^ e =? n else m =? n * 2 ^ (- e)
  | _ => false
  end.

(** [v != n] for an integer literal [n] *)
Definition ne_int (v : json) (n : Z) : bool :=
  match v with
  | JInt z => negb (z =? n)
  | JBool b => negb ((if b then 1 else 0) =? n)
  | JFloat f => negb (float_is f n)
  | _ => true
  end.

(** [v == s] for a string literal [s] *)
Definition eq_str (v : json) (s : string) : bool :=
  match v with
  | JStr t => String.eqb t s
  | _ => false
  end.

(** [bool(v)] *)
Definition truthy (v : json) : bool :=
  match v with
  | JNull => false
  | JBool b => b
  | JInt z => negb (z =? 0)
  | JFloat (FDyadic m _) => negb (m =? 0)
  | JFloat _ => true
  | JStr s => negb (Str.is_empty s)
  | JArr l => match l with [] => false | _ => true end
  | JObj l => match l with [] => false | _ => true end
  end.

(** ['%d' % v] *)
Definition percent_d (v : json) : result string :=
  match v with
  | JInt z => Ok (Str.of_Z z)
  | JBool b => Ok (if b then "1" else "0")
  | JFloat (FDyadic m e) =>
      Ok (Str.of_Z (if 0 <=? e then m * 2 ^ e else Z.quot m (2 ^ (- e))))
  | JFloat FNaN => Raise ValueError
  | JFloat (FInf _) => Raise OverflowError
  | _ => Raise TypeError
  end.

(** [v[key]] for a string key *)
Definition subscript (v : json) (key : string) : result json :=
  match v with
  | JObj d => getitem d key
  | _ => Raise TypeError
  end.

(** [s in v] for a string [s] *)
Definition contains (s : string) (v : json) : result bool :=
  match v with
  | JObj d => Ok (has_key d s)
  | JArr l => Ok (existsb (fun x => eq_str x s) l)
  | JStr t => Ok (Str.contains s t)
  | _ => Raise TypeError
  end.

(** the receiver of a dict method *)
Definition as_dict (v : json) : result dict :=
  match v with
  | JObj d => Ok d
  | _ => Raise AttributeError
  end.

(** the receiver of a str method *)
Definition as_str (v : json) : result string :=
  match v with
  | JStr s => Ok s
  | _ => Raise AttributeError
  end.

(** [s.replace(a, b)] for one-character [a] and [b] *)
Fixpoint replace (a b : ascii) (s : string) : string :=
  match s with
  | EmptyString => EmptyString
  | String c rest => String (if Ascii.eqb c a then b else c) (replace a b rest)
  end.

End Py.

(** ** The manifest parser *)

(** The dependency entry for the recipe_engine in the client repo's
    recipes.cfg; a namedtuple holds whatever values it is given. *)
Record EngineDep : Type := mkEngineDep {
  url : json;
  revision : json;
  branch : json
}.

Definition EngineDep_fields : list string := ["url"; "revision"; "branch"].

(** [EngineDep] called with the dict as its keyword arguments, line 110:
    a key that is not a field is refused. *)
Definition EngineDep_kwargs (engine : dict) : result EngineDep :=
  if forallb (fun kv => existsb (String.eqb (fst kv)) EngineDep_fields) engine then
    match Py.lookup engine "url", Py.lookup engine "revision", Py.lookup engine "branch" with
    | Some u, Some r, Some b => Ok (mkEngineDep u r b)
    | _, _, _ => Raise TypeError
    end
  else Raise TypeError.

Definition url_missing_msg : string :=
  "Required field " ++ Str.dq ++ "url" ++ Str.dq ++ " in dependency "
    ++ Str.dq ++ "recipe_engine" ++ Str.dq ++ " not found".

Definition ParseResult : Type := (option EngineDep * json * json)%type.

(** The body of the [try] of [parse], lines 81-110; a [KeyError] leaves it
    as [Raise (KeyError key)]. *)
Definition parse_try (repo_root recipes_cfg_path : string) (pb : dict)
  (py3_only : json) : result ParseResult :=
  (api_version <- Py.getitem pb "api_version" ;
   if Py.ne_int api_version 2 then
     (d <- Py.percent_d api_version ;
      Raise (MalformedRecipesCfg ("unknown version " ++ d) recipes_cfg_path))
   else
   let repo_name := Py.get pb "repo_name" JNull in
   repo_name <- (if negb (Py.truthy repo_name) then Py.getitem pb "project_id"
                 else Ok repo_name) ;
   if Py.eq_str repo_name "recipe_engine" then
     Ok (None, Py.get pb "recipes_path" (JStr EmptyString), py3_only)
   else
   deps <- Py.getitem pb "deps" ;
   engine <- Py.subscript deps "recipe_engine" ;
   has_url <- Py.contains "url" engine ;
   if negb has_url then Raise (MalformedRecipesCfg url_missing_msg recipes_cfg_path)
   else
   engine <- Py.as_dict engine ;
   let engine := Py.setdefault engine "revision" (JStr EmptyString) in
   let engine := Py.setdefault engine "branch" (JStr "refs/heads/main") in
   let recipes_path := Py.get pb "recipes_path" (JStr EmptyString) in
   branch <- Py.getitem engine "branch" ;
   branch <- Py.as_str branch ;
   let engine :=
     if negb (Str.startswith "refs/" branch)
     then Py.setitem engine "branch" (JStr ("refs/heads/" ++ branch))
     else engine in
   recipes_path <- Py.as_str recipes_path ;
   let recipes_path :=
     posixpath.join repo_root [Py.replace "/"%char posixpath.sep recipes_path] in
   dep <- EngineDep_kwargs engine ;
   Ok (Some dep, JStr recipes_path, py3_only))%res.

(** [parse] once the file is decoded, lines 78-112. *)
Definition parse_loaded (repo_root recipes_cfg_path : string) (pb : json)
  : result ParseResult :=
  (pb <- Py.as_dict pb ;
   let py3_only := Py.get pb "py3_only" (JBool false) in
   match parse_try repo_root recipes_cfg_path pb py3_only with
   | Raise (KeyError key) =>
       Raise (MalformedRecipesCfg (str_of_exn (KeyError key)) recipes_cfg_path)
   | r => r
   end)%res.

(** ** The world outside the process *)

(** Where a child's standard stream goes. *)
Inductive sink : Type := Inherit | DevNull | Pipe.

(** One [subprocess] invocation. *)
Record Call : Type := mkCall {
  argv : list string;
  cwd : option string;
  stdout_to : sink;
  stderr_to : sink
}.

(** What running a child to completion gives: its exit status and the
    bytes of its captured standard output, or the reason it never ran. *)
Inductive proc_outcome : Type :=
| Exited (returncode : Z) (out : string)
| NotStarted (what : string).

(** What [open] followed by [json.load] gives: the decoded value, or one
    of the failures told apart here (the file cannot be opened, its bytes
    are not text, the text is not JSON). *)
Inductive load_outcome : Type :=
| CannotOpen (what : string)
| CannotDecode
| NotJSON
| Decoded (pb : json).

(** What [os.remove] gives. *)
Inductive remove_outcome : Type :=
| RemoveDone
| RemoveFails (errno : Z) (what : string).

Definition ENOENT : Z := 2.

(** What the model records of its calls, in the order they happen. *)
Inductive Event : Type :=
| Ran (c : Call) (returncode : Z)
| RanNot (c : Call)
| Unlinked (path : string) (o : remove_outcome).

Inductive loglevel : Type := INFO | WARNING.

Inductive logarg : Type :=
| AStr (s : string)
| AList (l : list json)
| AOSError (errno : Z) (what : string).

(** A [logging] call: the level, the format and its arguments. *)
Record LogRecord : Type := mkLog {
  levelname : loglevel;
  fmt : string;
  args : list logarg
}.

(** Library functions the program calls and the model does not open. *)
Class Library : Type := {
  (** the values [argparse] collects for [-O]/[--project-override] (None
      when the option never occurs) and for [--package], before the
      conversion [type=] is applied; [None] when it rejects the command
      line and exits with status 2 *)
  argparse_scan : list string -> option (option (list string) * option string);
  (** [urlparse.urlparse(url).path] *)
  urlparse_path : string -> string;
  (** [str(v)] for a value that is not a string *)
  str_of_value : json -> string;
  (** [bytes.decode()], [None] when the bytes are not UTF-8 *)
  bytes_decode : string -> option string
}.

(** The operating system, as far as the program reaches it. *)
Class System (W : Type) : Type := {
  open_json : string -> W -> load_outcome;
  run_process : Call -> W -> proc_outcome * W;
  os_remove : string -> W -> remove_outcome * W;
  (** [shutil.which(basename) is not None] *)
  shutil_which : string -> W -> bool;
  os_getenv : string -> W -> option string;
  os_getcwd : W -> string;
  sys_argv : W -> list string;
  (** [__file__] *)
  script_file : W -> string;
  (** iterating the set [REQUIRED_BINARIES] yields [GIT] first *)
  git_hashes_first : W -> bool;
  (** [os.execvp]: [None] when the process image is replaced *)
  os_execvp : string -> list string -> W -> option string
}.

(** The state the model threads: the world and what was done to it. *)
Record State (W : Type) : Type := mkState {
  world : W;
  events : list Event;
  logs : list LogRecord;
  printed : list string;
  root_level : loglevel;
  ignored_signals : list string
}.

Definition M (W A : Type) : Type := State W -> result A * State W.

Module Mon.
Section Ops.
Context {W : Type}.

Definition ret {A} (a : A) : M W A := fun st => (Ok a, st).

Definition raise {A} (e : exn) : M W A := fun st => (Raise e, st).

Definition bind {A B} (c : M W A) (k : A -> M W B) : M W B :=
  fun st =>
    match c st with
    | (Ok a, st') => k a st'
    | (Raise e, st') => (Raise e, st')
    end.

Definition lift {A} (r : result A) : M W A := fun st => (r, st).

(** [try: c  except CalledProcessError: h] *)
Definition except_CalledProcessError {A} (c : M W A) (h : M W A) : M W A :=
  fun st =>
    match c st with
    | (Raise (CalledProcessError _ _), st') => h st'
    | r => r
    end.

Definition record (e : Event) : M W unit :=
  fun st => (Ok tt, mkState (world st) (events st ++ [e]) (logs st)
                      (printed st) (root_level st) (ignored_signals st)).

Definition log (l : loglevel) (f : string) (a : list logarg) : M W unit :=
  fun st => (Ok tt, mkState (world st) (events st) (logs st ++ [mkLog l f a])
                      (printed st) (root_level st) (ignored_signals st)).

Definition print (s : string) : M W unit :=
  fun st => (Ok tt, mkState (world st) (events st) (logs st)
                      (printed st ++ [s]) (root_level st) (ignored_signals st)).

Definition setLevel (l : loglevel) : M W unit :=
  fun st => (Ok tt, mkState (world st) (events st) (logs st)
                      (printed st) l (ignored_signals st)).

Definition ignore_signal (s : string) : M W unit :=
  fun st => (Ok tt, mkState (world st) (events st) (logs st)
                      (printed st) (root_level st) (ignored_signals st ++ [s])).

(** read the world *)
Definition ask {A} (f : W -> A) : M W A := fun st => (Ok (f (world st)), st).

(** act on the world *)
Definition act {A} (f : W -> A * W) : M W A :=
  fun st =>
    let '(a, w) := f (world st) in
    (Ok a, mkState w (events st) (logs st) (printed st) (root_level st)
             (ignored_signals st)).
End Ops.
End Mon.

Declare Scope mon_scope.
Delimit Scope mon_scope with mon.
Notation "x <- c ;; k" := (Mon.bind c (fun x => k))
  (at level 61, c at next level, right associativity) : mon_scope.
Notation "c ;; k" := (Mon.bind c (fun _ => k))
  (at level 61, right associativity) : mon_scope.

(** ** The program *)

(** [sys.platform] on the platform the model describes, a POSIX one. *)
Definition sys_platform : string := "linux".

(** line 115 *)
Definition IS_WIN : bool :=
  Str.startswith "win" sys_platform || Str.startswith "cygwin" sys_platform.
Definition _BAT : string := if IS_WIN then ".bat" else EmptyString.
Definition GIT : string := "git" ++ _BAT.
Definition CIPD : string := "cipd" ++ _BAT.

(** The set [{GIT, CIPD}], in the order its iteration yields. *)
Definition REQUIRED_BINARIES (git_first : bool) : list string :=
  if git_first then [GIT; CIPD] else [CIPD; GIT].

(** How [main] ends: it returns a status, or [os.execvp] replaces the
    process. *)
Inductive Finish : Type :=
| Returned (code : Z)
| Replaced (file : string) (args : list string).

Section Program.
Context {W : Type} {L : Library} {Sy : System W}.
Local Open Scope mon_scope.

(** Lines 76-77, then the rest of [parse]. *)
Definition parse (repo_root recipes_cfg_path : string) : M W ParseResult :=
  o <- Mon.ask (open_json recipes_cfg_path) ;;
  match o with
  | CannotOpen what => Mon.raise (OSError what)
  | CannotDecode => Mon.raise UnicodeDecodeError
  | NotJSON => Mon.raise JSONDecodeError
  | Decoded pb => Mon.lift (parse_loaded repo_root recipes_cfg_path pb)
  end.

Definition _is_on_path (basename : string) : M W bool :=
  Mon.ask (shutil_which basename).

(** the arguments of a child must be strings *)
Fixpoint strings_of (l : list json) : result (list string) :=
  match l with
  | [] => Ok []
  | JStr s :: rest =>
      match strings_of rest with
      | Ok ss => Ok (s :: ss)
      | Raise e => Raise e
      end
  | _ :: _ => Raise TypeError
  end.

(** run a child to completion and record it *)
Definition run_child (c : Call) : M W (Z * string) :=
  o <- Mon.act (run_process c) ;;
  match o with
  | Exited code out => Mon.record (Ran c code) ;; Mon.ret (code, out)
  | NotStarted what => Mon.record (RanNot c) ;; Mon.raise (OSError what)
  end.

(** [subprocess.call(argv, ...)] *)
Definition subprocess_call (args : list json) (dir : option string)
  (out err : sink) : M W Z :=
  a <- Mon.lift (strings_of args) ;;
  r <- run_child (mkCall a dir out err) ;;
  Mon.ret (fst r).

(** [subprocess.check_call(argv, ...)] *)
Definition subprocess_check_call (args : list json) (dir : option string)
  (out err : sink) : M W unit :=
  a <- Mon.lift (strings_of args) ;;
  r <- run_child (mkCall a dir out err) ;;
  if fst r =? 0 then Mon.ret tt
  else Mon.raise (CalledProcessError (fst r) a).

(** [subprocess.check_output(argv, ...)] *)
Definition subprocess_check_output (args : list json) (dir : option string)
  : M W string :=
  a <- Mon.lift (strings_of args) ;;
  r <- run_child (mkCall a dir Pipe Inherit) ;;
  if fst r =? 0 then Mon.ret (snd r)
  else Mon.raise (CalledProcessError (fst r) a).

Definition _subprocess_call (args : list json) : M W Z :=
  Mon.log INFO "Running %r" [AList args] ;;
  subprocess_call args None Inherit Inherit.

Definition _git_check_call (args : list json) (dir : option string)
  (out err : sink) : M W unit :=
  let args := JStr GIT :: args in
  Mon.log INFO "Running %r" [AList args] ;;
  subprocess_check_call args dir out err.

Definition _git_output (args : list json) (dir : option string) : M W string :=
  let args := JStr GIT :: args in
  Mon.log INFO "Running %r" [AList args] ;;
  subprocess_check_output args dir.

Definition PREFIX : string := "recipe_engine=".

(** [l or ()] *)
Definition or_empty (l : option (list string)) : list string :=
  match l with
  | Some l => l
  | None => []
  end.

(** [parse_args]: what [parse_known_args] leaves in the namespace, then
    the loop of lines 160-163. *)
Definition parse_args (args : list string) : M W (option string * option string) :=
  match argparse_scan args with
  | None => Mon.raise (SystemExit 2)
  | Some (project_override, package) =>
      dir <- Mon.ask os_getcwd ;;
      let package := option_map (posixpath.abspath dir) package in
      match find (Str.startswith PREFIX) (or_empty project_override) with
      | Some override => Mon.ret (Some (Str.drop (String.length PREFIX) override), package)
      | None => Mon.ret (None, package)
      end
  end.

(** [not engine_path] *)
Definition no_path (engine_path : option string) : bool :=
  match engine_path with
  | None => true
  | Some p => Str.is_empty p
  end.

(** ['%s' % v] *)
Definition percent_s (v : json) : string :=
  match v with
  | JStr s => s
  | _ => str_of_value v
  end.

(** Lines 204-218: bring the working tree to [revision], then clean. *)
Definition reset_and_clean (engine_path : string) (revision : json) : M W unit :=
  Mon.except_CalledProcessError
    (_git_check_call [JStr "diff"; JStr "--quiet"; revision]
       (Some engine_path) Inherit Inherit)
    (let index_lock := posixpath.join engine_path [".git"; "index.lock"] in
     o <- Mon.act (os_remove index_lock) ;;
     Mon.record (Unlinked index_lock o) ;;
     match o with
     | RemoveDone => Mon.ret tt
     | RemoveFails errno what =>
         if negb (errno =? ENOENT) then
           Mon.log WARNING "failed to remove %r, reset will fail: %s"
             [AStr index_lock; AOSError errno what]
         else Mon.ret tt
     end ;;
     _git_check_call [JStr "reset"; JStr "-q"; JStr "--hard"; revision]
       (Some engine_path) Inherit Inherit) ;;
  _git_check_call [JStr "clean"; JStr "-qxf"] (Some engine_path) Inherit Inherit.

(** [os.path.join(a, *p)] where [a] is expected to be a string *)
Definition join_under (a : json) (p : list string) : result string :=
  match a with
  | JStr s => Ok (posixpath.join s p)
  | _ => Raise TypeError
  end.

(** [os.path.join(a, b)] where [b] is expected to be a string *)
Definition join_value (a : string) (b : json) : result string :=
  match b with
  | JStr s => Ok (posixpath.join a [s])
  | _ => Raise TypeError
  end.

(** Lines 183-218: the managed checkout. *)
Definition managed_checkout (dep : EngineDep) (recipes_path : json) : M W string :=
  let revision := revision dep in
  let branch := branch dep in
  engine_path <- Mon.lift (join_under recipes_path [".recipe_deps"; "recipe_engine"]) ;;
  _git_check_call [JStr "init"; JStr engine_path] None DevNull Inherit ;;
  Mon.except_CalledProcessError
    (_git_check_call
       [JStr "rev-parse"; JStr "--verify"; JStr (percent_s revision ++ "^{commit}")]
       (Some engine_path) DevNull DevNull)
    (_git_check_call [JStr "fetch"; JStr "--quiet"; url dep; branch]
       (Some engine_path) DevNull Inherit) ;;
  reset_and_clean engine_path revision ;;
  Mon.ret engine_path.

(** the string in a path that [no_path] does not hold of *)
Definition the_path (engine_path : option string) : string :=
  match engine_path with
  | Some p => p
  | None => EmptyString
  end.

Definition checkout_engine (engine_path : option string)
  (repo_root recipes_cfg_path : string) : M W (string * json) :=
  r <- parse repo_root recipes_cfg_path ;;
  let '(dep, recipes_path, py3_only) := r in
  match dep with
  | None =>
      (* we're running from the engine repo already! *)
      p <- Mon.lift (join_value repo_root recipes_path) ;;
      Mon.ret (p, py3_only)
  | Some dep =>
      engine_path <-
        (if no_path engine_path then
           u <- Mon.lift (Py.as_str (url dep)) ;;
           if Str.startswith "file://" u then Mon.ret (Some (urlparse_path u))
           else Mon.ret engine_path
         else Mon.ret engine_path) ;;
      if no_path engine_path then
        p <- managed_checkout dep recipes_path ;;
        Mon.ret (p, py3_only)
      else Mon.ret (the_path engine_path, py3_only)
  end.

(** the loop of lines 229-232 *)
Fixpoint require_binaries (l : list string) : M W unit :=
  match l with
  | [] => Mon.ret tt
  | required_binary :: rest =>
      ok <- _is_on_path required_binary ;;
      if negb ok then
        Mon.raise (RequiredBinaryNotFound
                     ("Required binary is not found on PATH: " ++ required_binary))
      else require_binaries rest
  end.

(** Lines 240-251: the repository root, the manifest path and the
    arguments to forward. *)
Definition locate (recipes_cfg_path : option string) (args : list string)
  : M W (string * string * list string) :=
  if negb (no_path recipes_cfg_path) then
    let recipes_cfg_path := the_path recipes_cfg_path in
    let repo_root :=
      posixpath.dirname (posixpath.dirname (posixpath.dirname recipes_cfg_path)) in
    Mon.ret (repo_root, recipes_cfg_path, args)
  else
    dir <- Mon.ask os_getcwd ;;
    file <- Mon.ask script_file ;;
    out <- _git_output [JStr "rev-parse"; JStr "--show-toplevel"]
             (Some (posixpath.abspath dir (posixpath.dirname file))) ;;
    match bytes_decode out with
    | None => Mon.raise UnicodeDecodeError
    | Some repo_root =>
        let recipes_cfg_path :=
          posixpath.join repo_root ["infra"; "config"; "recipes.cfg"] in
        Mon.ret (repo_root, recipes_cfg_path, "--package" :: recipes_cfg_path :: args)
    end.

(** the name of the runtime, line 256 *)
Definition vpython_name (using_py3 : bool) : string :=
  "vpython" ++ (if using_py3 then "3" else EmptyString) ++ _BAT.

(** Lines 229-251: the checks of [git] and [cipd], the command line, and
    where the repository and its manifest are. *)
Definition main_resolve : M W (option string * string * string * list string) :=
  git_first <- Mon.ask git_hashes_first ;;
  require_binaries (REQUIRED_BINARIES git_first) ;;
  sys_argv <- Mon.ask sys_argv ;;
  (if existsb (String.eqb "--verbose") sys_argv then Mon.setLevel INFO
   else Mon.ret tt) ;;
  let args := List.tl sys_argv in
  pa <- parse_args args ;;
  let '(engine_override, recipes_cfg_path) := pa in
  loc <- locate recipes_cfg_path args ;;
  let '(repo_root, recipes_cfg_path, args) := loc in
  Mon.ret (engine_override, repo_root, recipes_cfg_path, args).

(** Lines 255-277: the choice of the runtime and the handoff. *)
Definition main_launch (engine_path : string) (py3_only : json)
  (args : list string) : M W Finish :=
  env <- Mon.ask (os_getenv "RECIPES_USE_PY3") ;;
  let using_py3 :=
    Py.truthy py3_only
    || match env with Some v => String.eqb v "true" | None => false end in
  let vpython := vpython_name using_py3 in
  ok <- _is_on_path vpython ;;
  if negb ok then
    Mon.raise (RequiredBinaryNotFound
                 ("Required binary is not found on PATH: " ++ vpython))
  else
  let argv :=
    vpython :: "-u" :: posixpath.join engine_path ["recipe_engine"; "main.py"] :: args in
  if IS_WIN then
    Mon.ignore_signal "SIGBREAK" ;;
    Mon.ignore_signal "SIGINT" ;;
    Mon.ignore_signal "SIGTERM" ;;
    code <- _subprocess_call (map JStr argv) ;;
    Mon.ret (Returned code)
  else
    o <- Mon.ask (os_execvp vpython argv) ;;
    match o with
    | None => Mon.ret (Replaced vpython argv)
    | Some what => Mon.raise (OSError what)
    end.

(** Lines 229-277, the body of the [try] of [main]. *)
Definition main_try : M W Finish :=
  r <- main_resolve ;;
  let '(engine_override, repo_root, recipes_cfg_path, args) := r in
  ce <- checkout_engine engine_override repo_root recipes_cfg_path ;;
  let '(engine_path, py3_only) := ce in
  main_launch engine_path py3_only args.

(** [main]: a missing binary is reported and gives status 1. *)
Definition main : M W Finish :=
  fun st =>
    match main_try st with
    | (Raise (RequiredBinaryNotFound msg), st') =>
        (Mon.print (str_of_exn (RequiredBinaryNotFound msg)) ;;
         Mon.ret (Returned 1)) st'
    | r => r
    end.

(** The status the process ends with under [sys.exit(main())]; [None]
    when the process was replaced. *)
Definition exit_status (r : result Finish) : option Z :=
  match r with
  | Ok (Returned code) => Some code
  | Ok (Replaced _ _) => None
  | Raise (SystemExit code) => Some code
  | Raise _ => Some 1
  end.

End Program.

(** ** A double of the outside world, for concrete runs

    A small stand-in for the file system, the search path and the
    version-control tool: one managed checkout with a HEAD, a tracked
    working tree identified by the tree it equals, untracked files and
    possibly an index lock. *)

Module Double.

Inductive lock : Type := NoLock | StaleLock | StuckLock.

Record World : Type := mkWorld {
  files : list (string * json);       (* the manifests that exist *)
  garbled : list string;              (* files that are not JSON *)
  on_path : list string;              (* the programs on the search path *)
  cmdline : list string;              (* sys.argv *)
  workdir : string;                   (* os.getcwd() *)
  script : string;                    (* __file__ *)
  environ : list (string * string);
  toplevel : string;                  (* the enclosing repository *)
  git_first : bool;
  known : list string;                (* revisions that resolve locally *)
  remote : list string;               (* revisions a fetch brings *)
  trees : list (string * nat);        (* the tree of each revision *)
  HEAD : string;
  worktree : nat;                     (* the tree the tracked files equal *)
  untracked : list string;
  index_lock : lock
}.

Definition NL : string := String (ascii_of_nat 10) EmptyString.

Definition mem (s : string) (l : list string) : bool := existsb (String.eqb s) l.

Fixpoint assoc {A} (k : string) (l : list (string * A)) : option A :=
  match l with
  | [] => None
  | (k', v) :: rest => if String.eqb k k' then Some v else assoc k rest
  end.

Definition tree_of (w : World) (r : string) : nat :=
  match assoc r (trees w) with Some t => t | None => O end.

Definition set_repo (w : World) (kn : list string) (h : string) (wt : nat)
  (ut : list string) (lk : lock) : World :=
  mkWorld (files w) (garbled w) (on_path w) (cmdline w) (workdir w) (script w)
    (environ w) (toplevel w) (git_first w) kn (remote w) (trees w) h wt ut lk.

(** what the version-control tool does with its arguments *)
Definition git (a : list string) (w : World) : proc_outcome * World :=
  match a with
  | ["init"; _] => (Exited 0 EmptyString, w)
  | ["rev-parse"; "--show-toplevel"] => (Exited 0 (toplevel w ++ NL), w)
  | ["rev-parse"; "--verify"; x] =>
      if existsb (fun r => String.eqb (r ++ "^{commit}") x) (known w)
      then (Exited 0 EmptyString, w) else (Exited 128 EmptyString, w)
  | ["fetch"; "--quiet"; _; _] =>
      (Exited 0 EmptyString,
       set_repo w (known w ++ remote w) (HEAD w) (worktree w) (untracked w) (index_lock w))
  | ["diff"; "--quiet"; r] =>
      if negb (mem r (known w)) then (Exited 128 EmptyString, w)
      else if Nat.eqb (tree_of w r) (worktree w) then (Exited 0 EmptyString, w)
      else (Exited 1 EmptyString, w)
  | ["reset"; "-q"; "--hard"; r] =>
      match index_lock w with
      | NoLock =>
          if mem r (known w)
          then (Exited 0 EmptyString,
                set_repo w (known w) r (tree_of w r) (untracked w) NoLock)
          else (Exited 128 EmptyString, w)
      | _ => (Exited 128 EmptyString, w)
      end
  | ["clean"; "-qxf"] =>
      (Exited 0 EmptyString,
       set_repo w (known w) (HEAD w) (worktree w) [] (index_lock w))
  | _ => (Exited 129 EmptyString, w)
  end.

Definition run (c : Call) (w : World) : proc_outcome * World :=
  match argv c with
  | prog :: a =>
      if String.eqb prog GIT then git a w
      else if mem prog (on_path w) then (Exited 0 EmptyString, w)
      else (NotStarted "No such file or directory", w)
  | [] => (NotStarted "empty argv", w)
  end.

Definition remove (path : string) (w : World) : remove_outcome * World :=
  match index_lock w with
  | NoLock => (RemoveFails ENOENT "No such file or directory", w)
  | StaleLock =>
      (RemoveDone,
       set_repo w (known w) (HEAD w) (worktree w) (untracked w) NoLock)
  | StuckLock => (RemoveFails 13 "Permission denied", w)
  end.

Definition load (path : string) (w : World) : load_outcome :=
  if mem path (garbled w) then NotJSON
  else match assoc path (files w) with
       | Some pb => Decoded pb
       | None => CannotOpen "No such file or directory"
       end.

#[export] Instance system : System World := {
  open_json := load;
  run_process := run;
  os_remove := remove;
  shutil_which := fun b w => mem b (on_path w);
  os_getenv := fun k w => assoc k (environ w);
  os_getcwd := workdir;
  sys_argv := cmdline;
  script_file := script;
  git_hashes_first := git_first;
  os_execvp := fun _ _ _ => None
}.

(** the separate-argument forms [-O v], [--project-override v] and
    [--package v]; an option at the end, with no value, is rejected *)
Fixpoint scan (a : list string) (ov : list string) (pk : option string)
  : option (list string * option string) :=
  match a with
  | [] => Some (ov, pk)
  | o :: rest =>
      if String.eqb o "-O" || String.eqb o "--project-override" then
        match rest with
        | v :: rest' => scan rest' (ov ++ [v]) pk
        | [] => None
        end
      else if String.eqb o "--package" then
        match rest with
        | v :: rest' => scan rest' ov (Some v)
        | [] => None
        end
      else scan rest ov pk
  end.

#[export] Instance library : Library := {
  argparse_scan := fun a =>
    match scan a [] None with
    | Some ([], pk) => Some (None, pk)
    | Some (ov, pk) => Some (Some ov, pk)
    | None => None
    end;
  urlparse_path := fun u => Str.from_char "/"%char (Str.drop 7 u);
  str_of_value := fun v =>
    match v with
    | JInt z => Str.of_Z z
    | JNull => "None"
    | JBool true => "True"
    | JBool false => "False"
    | _ => "?"
    end;
  bytes_decode := fun b => Some b
}.

Definition start (w : World) : State World := mkState w [] [] [] WARNING [].

End Double.

(** * Properties *)

(** ** What the specification says of a manifest *)

(** The declared schema version equals 2. *)
Definition version_ok (pb : dict) : Prop :=
  exists v, Py.lookup pb "api_version" = Some v /\ Py.ne_int v 2 = false.

(** The repository identifier: [repo_name] when it is present and not
    empty, the legacy [project_id] otherwise. *)
Definition identifier (pb : dict) : option json :=
  let repo_name := Py.get pb "repo_name" JNull in
  if Py.truthy repo_name then Some repo_name else Py.lookup pb "project_id".

Definition self_hosting (pb : dict) : Prop :=
  identifier pb = Some (JStr "recipe_engine").

Definition dependent (pb : dict) : Prop :=
  exists id, identifier pb = Some id /\ Py.eq_str id "recipe_engine" = false.

(** Normalization of a branch name, in the words of the specification: a
    short name is prefixed to make it fully qualified. *)
Definition normalize_branch (b : string) : string :=
  if Str.startswith "refs/" b then b else "refs/heads/" ++ b.

(** The manifests that are malformed, each with the field the message
    names. *)
Inductive Malformed (pb : dict) : string -> Prop :=
| M_no_version :
    Py.lookup pb "api_version" = None ->
    Malformed pb (Str.repr "api_version")
| M_version v d :
    Py.lookup pb "api_version" = Some v ->
    Py.ne_int v 2 = true ->
    Py.percent_d v = Ok d ->
    Malformed pb ("unknown version " ++ d)
| M_no_identifier :
    version_ok pb ->
    identifier pb = None ->
    Malformed pb (Str.repr "project_id")
| M_no_deps :
    version_ok pb -> dependent pb ->
    Py.lookup pb "deps" = None ->
    Malformed pb (Str.repr "deps")
| M_no_engine deps :
    version_ok pb -> dependent pb ->
    Py.lookup pb "deps" = Some (JObj deps) ->
    Py.lookup deps "recipe_engine" = None ->
    Malformed pb (Str.repr "recipe_engine")
| M_no_url deps engine :
    version_ok pb -> dependent pb ->
    Py.lookup pb "deps" = Some (JObj deps) ->
    Py.lookup deps "recipe_engine" = Some engine ->
    Py.contains "url" engine = Ok false ->
    Malformed pb url_missing_msg.

(** The declared version, when it is not 2, is one that the format [%d]
    of line 82 prints: an integer, a boolean or a finite float. *)
Definition version_formats (pb : dict) : Prop :=
  forall v,
    Py.lookup pb "api_version" = Some v -> Py.ne_int v 2 = true ->
    exists d, Py.percent_d v = Ok d.

(** ** Lemmas on strings, paths and dicts *)

Lemma startswith_app (p s : string) : Str.startswith p (p ++ s) = true.
Proof.
  unfold Str.startswith.
  induction p as [|c p IH]; simpl.
  - destruct s; reflexivity.
  - rewrite IH. destruct (ascii_dec c c); congruence.
Qed.

Lemma drop_app (p s : string) : Str.drop (String.length p) (p ++ s) = s.
Proof. induction p as [|c p IH]; simpl; [destruct s|]; auto. Qed.

Lemma normalize_branch_qualified (b : string) :
  Str.startswith "refs/" (normalize_branch b) = true.
Proof.
  unfold normalize_branch.
  destruct (Str.startswith "refs/" b) eqn:E; [exact E|].
  change ("refs/heads/" ++ b) with ("refs/" ++ ("heads/" ++ b)).
  apply startswith_app.
Qed.

Lemma normalize_branch_idem (b : string) :
  normalize_branch (normalize_branch b) = normalize_branch b.
Proof.
  unfold normalize_branch at 1.
  now rewrite normalize_branch_qualified.
Qed.

Lemma lookup_setitem_same (d : dict) (k : string) (v : json) :
  Py.lookup (Py.setitem d k v) k = Some v.
Proof.
  induction d as [|[k' w] d IH]; simpl.
  - now rewrite String.eqb_refl.
  - destruct (String.eqb k' k) eqn:E; simpl; rewrite E; auto.
Qed.

Lemma lookup_setitem_other (d : dict) (k k' : string) (v : json) :
  String.eqb k k' = false ->
  Py.lookup (Py.setitem d k v) k' = Py.lookup d k'.
Proof.
  intros Hk.
  induction d as [|[k0 w] d IH]; simpl.
  - rewrite Hk. reflexivity.
  - destruct (String.eqb k0 k) eqn:E; simpl.
    + apply String.eqb_eq in E. subst k0. rewrite Hk. reflexivity.
    + destruct (String.eqb k0 k'); auto.
Qed.

Lemma lookup_app (d e : dict) (k : string) :
  Py.lookup (d ++ e)%list k =
  match Py.lookup d k with Some v => Some v | None => Py.lookup e k end.
Proof.
  induction d as [|[k0 w] d IH]; simpl; auto.
  destruct (String.eqb k0 k); auto.
Qed.

Lemma lookup_setdefault (d : dict) (k k' : string) (v : json) :
  Py.lookup (Py.setdefault d k v) k' =
  match Py.lookup d k' with
  | Some w => Some w
  | None => if String.eqb k k' then Some v else None
  end.
Proof.
  unfold Py.setdefault, Py.has_key.
  destruct (Py.lookup d k) eqn:E.
  - destruct (Py.lookup d k') eqn:E'; auto.
    destruct (String.eqb k k') eqn:Ek; auto.
    apply String.eqb_eq in Ek. congruence.
  - rewrite lookup_app. simpl. reflexivity.
Qed.

Lemma replace_same (a : ascii) (s : string) : Py.replace a a s = s.
Proof.
  induction s as [|c s IH]; cbn; [reflexivity|].
  rewrite IH. destruct (Ascii.eqb_spec c a); congruence.
Qed.

(** The keys of a dict after [d[key] = v]. *)
Lemma keys_setitem (P : string -> bool) (d : dict) (key : string) (v : json) :
  P key = true ->
  forallb (fun kv => P (fst kv)) (Py.setitem d key v) =
  forallb (fun kv => P (fst kv)) d.
Proof.
  intros Hk. induction d as [|[k w] d IH]; cbn.
  - now rewrite Hk.
  - destruct (String.eqb k key); cbn; [reflexivity|]. now rewrite IH.
Qed.

Lemma keys_setdefault (P : string -> bool) (d : dict) (key : string) (v : json) :
  P key = true ->
  forallb (fun kv => P (fst kv)) (Py.setdefault d key v) =
  forallb (fun kv => P (fst kv)) d.
Proof.
  intros Hk. unfold Py.setdefault.
  destruct (Py.has_key d key); [reflexivity|].
  rewrite forallb_app. cbn. rewrite Hk. now rewrite !andb_true_r.
Qed.

(** ** The manifest parser *)

Section ParseProperties.
Context {W : Type} {L : Library} {Sy : System W}.

Lemma parse_decoded (repo_root path : string) (pb : json) (st : State W) :
  open_json path (world st) = Decoded pb ->
  parse repo_root path st = (parse_loaded repo_root path pb, st).
Proof.
  intros H. unfold parse, Mon.bind, Mon.ask. rewrite H. reflexivity.
Qed.

Lemma parse_keeps_state (repo_root path : string) (st : State W) :
  snd (parse repo_root path st) = st.
Proof.
  unfold parse, Mon.bind, Mon.ask, Mon.raise, Mon.lift.
  destruct (open_json path (world st)); reflexivity.
Qed.

(** What [parse_try] does once the version is accepted and the
    identifier is found. *)
Lemma parse_try_identified (repo_root path : string) (pb : dict) (py3 id : json) :
  version_ok pb -> identifier pb = Some id ->
  parse_try repo_root path pb py3 =
  (if Py.eq_str id "recipe_engine" then
     Ok (None, Py.get pb "recipes_path" (JStr EmptyString), py3)
   else
     deps <- Py.getitem pb "deps" ;
     engine <- Py.subscript deps "recipe_engine" ;
     has_url <- Py.contains "url" engine ;
     if negb has_url then Raise (MalformedRecipesCfg url_missing_msg path)
     else
     engine <- Py.as_dict engine ;
     let engine := Py.setdefault engine "revision" (JStr EmptyString) in
     let engine := Py.setdefault engine "branch" (JStr "refs/heads/main") in
     let recipes_path := Py.get pb "recipes_path" (JStr EmptyString) in
     branch <- Py.getitem engine "branch" ;
     branch <- Py.as_str branch ;
     let engine :=
       if negb (Str.startswith "refs/" branch)
       then Py.setitem engine "branch" (JStr ("refs/heads/" ++ branch))
       else engine in
     recipes_path <- Py.as_str recipes_path ;
     let recipes_path :=
       posixpath.join repo_root [Py.replace "/"%char posixpath.sep recipes_path] in
     dep <- EngineDep_kwargs engine ;
     Ok (Some dep, JStr recipes_path, py3))%res.
Proof.
  intros [v [Hv Hne]] Hid.
  unfold parse_try, Py.getitem at 1. rewrite Hv. cbn [Res.bind]. rewrite Hne.
  unfold identifier in Hid.
  destruct (Py.truthy (Py.get pb "repo_name" JNull)) eqn:Ht; cbn [negb].
  - injection Hid as <-. reflexivity.
  - unfold Py.getitem at 1. rewrite Hid. reflexivity.
Qed.

(** C7: a manifest of version 2 whose identifier ([repo_name], or
    [project_id] as the fallback) is [recipe_engine] parses to no
    dependency, the declared [recipes_path] (empty by default) and the
    [py3_only] flag, whatever else it holds, [deps] included. *)
Theorem parse_self_hosting (repo_root path : string) (pb : dict) (st : State W) :
  open_json path (world st) = Decoded (JObj pb) ->
  version_ok pb ->
  self_hosting pb ->
  parse repo_root path st =
  (Ok (None, Py.get pb "recipes_path" (JStr EmptyString),
       Py.get pb "py3_only" (JBool false)), st).
Proof.
  intros Hopen Hv Hself.
  rewrite (parse_decoded repo_root _ _ Hopen).
  unfold parse_loaded. cbn [Py.as_dict Res.bind].
  rewrite (parse_try_identified repo_root path _ Hv Hself).
  reflexivity.
Qed.

Lemma getitem_Ok (d : dict) (k : string) (v : json) :
  Py.getitem d k = Ok v <-> Py.lookup d k = Some v.
Proof.
  unfold Py.getitem. destruct (Py.lookup d k); split; congruence.
Qed.

Lemma getitem_Raise (d : dict) (k : string) (e : exn) :
  Py.getitem d k = Raise e <-> Py.lookup d k = None /\ e = KeyError k.
Proof.
  unfold Py.getitem. destruct (Py.lookup d k); split.
  - discriminate.
  - intros [H _]. discriminate.
  - intros H. injection H as <-. split; reflexivity.
  - intros [_ ->]. reflexivity.
Qed.

Lemma EngineDep_kwargs_branch (engine : dict) (dep : EngineDep) :
  EngineDep_kwargs engine = Ok dep ->
  Py.lookup engine "branch" = Some (branch dep).
Proof.
  unfold EngineDep_kwargs.
  destruct (forallb _ engine); [|discriminate].
  destruct (Py.lookup engine "url"), (Py.lookup engine "revision"),
    (Py.lookup engine "branch"); try discriminate.
  intros H. injection H as <-. reflexivity.
Qed.

(** The entry a manifest declares for the engine, when [parse] returns a
    dependency, and the branch of that dependency. *)
Lemma parse_try_dependency (repo_root path : string) (pb : dict) (py3 : json)
  (dep : EngineDep) (rp py3' : json) :
  parse_try repo_root path pb py3 = Ok (Some dep, rp, py3') ->
  exists deps engine b,
    Py.lookup pb "deps" = Some (JObj deps) /\
    Py.lookup deps "recipe_engine" = Some (JObj engine) /\
    Py.get engine "branch" (JStr "refs/heads/main") = JStr b /\
    branch dep = JStr (normalize_branch b) /\
    exists rps, rp = JStr rps.
Proof.
  unfold parse_try. intros H.
  destruct (Py.getitem pb "api_version") as [v|] eqn:Ev; [|discriminate].
  cbn [Res.bind] in H.
  destruct (Py.ne_int v 2).
  { destruct (Py.percent_d v); discriminate. }
  destruct (if negb (Py.truthy (Py.get pb "repo_name" JNull))
            then Py.getitem pb "project_id"
            else Ok (Py.get pb "repo_name" JNull)) as [id|] eqn:Eid;
    [|discriminate].
  cbn [Res.bind] in H.
  destruct (Py.eq_str id "recipe_engine"); [discriminate|].
  destruct (Py.getitem pb "deps") as [deps0|] eqn:Edeps; [|discriminate].
  cbn [Res.bind] in H.
  destruct (Py.subscript deps0 "recipe_engine") as [engine0|] eqn:Eeng;
    [|discriminate].
  cbn [Res.bind] in H.
  destruct (Py.contains "url" engine0) as [has|] eqn:Eurl; [|discriminate].
  cbn [Res.bind] in H.
  destruct has; cbn [negb] in H; [|discriminate].
  destruct (Py.as_dict engine0) as [engine|] eqn:Edict; [|discriminate].
  cbn [Res.bind] in H.
  destruct engine0 as [| | | | | |engine']; try discriminate.
  injection Edict as <-.
  destruct deps0 as [| | | | | |deps]; try discriminate.
  cbn [Py.subscript] in Eeng.
  apply getitem_Ok in Edeps, Eeng.
  set (e2 := Py.setdefault (Py.setdefault engine' "revision" (JStr EmptyString))
               "branch" (JStr "refs/heads/main")) in *.
  destruct (Py.getitem e2 "branch") as [b0|] eqn:Eb; [|discriminate].
  cbn [Res.bind] in H.
  destruct (Py.as_str b0) as [b|] eqn:Es; [|discriminate].
  cbn [Res.bind] in H.
  destruct b0; try discriminate. injection Es as ->.
  destruct (Py.as_str (Py.get pb "recipes_path" (JStr EmptyString)));
    [|discriminate].
  cbn [Res.bind] in H.
  match type of H with
  | context [EngineDep_kwargs ?e] =>
      destruct (EngineDep_kwargs e) as [dep'|] eqn:Ek; [|discriminate]
  end.
  cbn [Res.bind] in H. injection H as -> <- _.
  apply EngineDep_kwargs_branch in Ek.
  apply getitem_Ok in Eb.
  exists deps, engine', b.
  split; [|split; [|split; [|split; [|eexists; reflexivity]]]]; auto.
  - subst e2. rewrite !lookup_setdefault in Eb. cbn in Eb.
    unfold Py.get. destruct (Py.lookup engine' "branch"); congruence.
  - unfold normalize_branch.
    destruct (Str.startswith "refs/" b); cbn [negb] in Ek.
    + congruence.
    + rewrite lookup_setitem_same in Ek. congruence.
Qed.

(** The [try] of [parse] on a manifest that declares a dependency on the
    engine: the entry is completed with its defaults and the branch is
    qualified. *)
Lemma parse_try_accepts (repo_root path : string) (pb deps engine : dict)
  (py3 u : json) (declared rps : string) :
  version_ok pb -> dependent pb ->
  Py.lookup pb "deps" = Some (JObj deps) ->
  Py.lookup deps "recipe_engine" = Some (JObj engine) ->
  Py.lookup engine "url" = Some u ->
  (forall key value,
      In (key, value) engine ->
      key = "url" \/ key = "revision" \/ key = "branch") ->
  Py.get engine "branch" (JStr "refs/heads/main") = JStr declared ->
  Py.get pb "recipes_path" (JStr EmptyString) = JStr rps ->
  parse_try repo_root path pb py3 =
  Ok (Some (mkEngineDep u (Py.get engine "revision" (JStr EmptyString))
              (JStr (normalize_branch declared))),
      JStr (posixpath.join repo_root [Py.replace "/"%char posixpath.sep rps]), py3).
Proof.
  intros Hv [id [Hid Hs]] Hd He Hurl Hkeys Hb Hrp.
  rewrite (parse_try_identified repo_root path _ Hv Hid), Hs.
  unfold Py.getitem at 1. rewrite Hd. cbn [Res.bind Py.subscript].
  unfold Py.getitem at 1. rewrite He. cbn [Res.bind Py.contains].
  unfold Py.has_key. rewrite Hurl. cbn [negb Py.as_dict Res.bind].
  set (e2 := Py.setdefault (Py.setdefault engine "revision" (JStr EmptyString))
               "branch" (JStr "refs/heads/main")).
  assert (Hb2 : Py.lookup e2 "branch" = Some (JStr declared)).
  { subst e2. rewrite !lookup_setdefault. cbn.
    unfold Py.get in Hb. destruct (Py.lookup engine "branch"); congruence. }
  assert (Hu2 : Py.lookup e2 "url" = Some u).
  { subst e2. rewrite !lookup_setdefault. now rewrite Hurl. }
  assert (Hr2 : Py.lookup e2 "revision" =
                Some (Py.get engine "revision" (JStr EmptyString))).
  { subst e2. rewrite !lookup_setdefault. cbn.
    unfold Py.get. now destruct (Py.lookup engine "revision"). }
  assert (Hall : forallb (fun kv => existsb (String.eqb (fst kv)) EngineDep_fields)
                   engine = true).
  { apply forallb_forall. intros [key value] Hin.
    destruct (Hkeys key value Hin) as [->|[->| ->]]; reflexivity. }
  pose (P := fun k => existsb (String.eqb k) EngineDep_fields).
  pose proof (fun d k v H => keys_setitem P d k v H) as Kset.
  pose proof (fun d k v H => keys_setdefault P d k v H) as Kdef.
  subst P. cbv beta in Kset, Kdef.
  assert (Hall2 : forallb (fun kv => existsb (String.eqb (fst kv)) EngineDep_fields)
                    e2 = true).
  { subst e2. rewrite !Kdef by reflexivity. exact Hall. }
  unfold Py.getitem. rewrite Hb2. cbn [Res.bind Py.as_str]. rewrite Hrp.
  cbn [Py.as_str Res.bind].
  unfold normalize_branch.
  destruct (Str.startswith "refs/" declared); cbn [negb].
  - unfold EngineDep_kwargs. rewrite Hall2, Hu2, Hr2, Hb2.
    reflexivity.
  - unfold EngineDep_kwargs.
    rewrite Kset, Hall2 by reflexivity.
    rewrite !lookup_setitem_other by reflexivity.
    rewrite lookup_setitem_same, Hu2, Hr2. reflexivity.
Qed.

(** C6: when [parse] returns a dependency, the manifest has an entry for
    the engine and the dependency's branch is the normalized form of the
    declared one: [refs/heads/main] when the entry declares none, the
    name prefixed by [refs/heads/] when it does not start with [refs/],
    the name itself when it does; normalizing twice is normalizing
    once. And [parse] does return a dependency, with that branch, for
    every manifest of version 2 with an identifier other than
    [recipe_engine] whose entry for the engine is an object with a [url]
    and no key other than [url], [revision] and [branch], where the branch
    is absent or a string and [recipes_path] is absent or a string. *)
Theorem parse_branch_normalized (repo_root path : string) (st : State W) :
  (forall dep rp py3,
      fst (parse repo_root path st) = Ok (Some dep, rp, py3) ->
      exists pb deps engine declared,
        open_json path (world st) = Decoded (JObj pb) /\
        Py.lookup pb "deps" = Some (JObj deps) /\
        Py.lookup deps "recipe_engine" = Some (JObj engine) /\
        Py.get engine "branch" (JStr "refs/heads/main") = JStr declared /\
        branch dep = JStr (normalize_branch declared) /\
        (Py.lookup engine "branch" = None -> branch dep = JStr "refs/heads/main") /\
        (Str.startswith "refs/" declared = false ->
         branch dep = JStr ("refs/heads/" ++ declared)) /\
        (Str.startswith "refs/" declared = true -> branch dep = JStr declared) /\
        normalize_branch (normalize_branch declared) = normalize_branch declared)
  /\
  (forall pb deps engine u declared rps,
      open_json path (world st) = Decoded (JObj pb) ->
      version_ok pb -> dependent pb ->
      Py.lookup pb "deps" = Some (JObj deps) ->
      Py.lookup deps "recipe_engine" = Some (JObj engine) ->
      Py.lookup engine "url" = Some u ->
      (forall key value,
          In (key, value) engine ->
          key = "url" \/ key = "revision" \/ key = "branch") ->
      Py.get engine "branch" (JStr "refs/heads/main") = JStr declared ->
      Py.get pb "recipes_path" (JStr EmptyString) = JStr rps ->
      parse repo_root path st =
      (Ok (Some (mkEngineDep u (Py.get engine "revision" (JStr EmptyString))
                   (JStr (normalize_branch declared))),
           JStr (posixpath.join repo_root [rps]),
           Py.get pb "py3_only" (JBool false)), st)).
Proof.
  split.
  - intros dep rp py3 H.
    unfold parse, Mon.bind, Mon.ask, Mon.raise, Mon.lift in H.
    destruct (open_json path (world st)) as [| | |pb0] eqn:Eopen;
      try discriminate.
    cbn [fst] in H. unfold parse_loaded in H.
    destruct pb0 as [| | | | | |pb]; try discriminate.
    cbn [Py.as_dict Res.bind] in H.
    destruct (parse_try repo_root path pb (Py.get pb "py3_only" (JBool false)))
      as [r|e] eqn:Etry.
    + injection H as ->.
      destruct (parse_try_dependency _ _ _ _ Etry)
        as (deps & engine & b & Hd & He & Hb & Hn & _).
      exists pb, deps, engine, b. repeat split; auto.
      * intros Hnone. unfold Py.get in Hb. rewrite Hnone in Hb.
        injection Hb as <-. rewrite Hn. reflexivity.
      * intros Hs. rewrite Hn. unfold normalize_branch. now rewrite Hs.
      * intros Hs. rewrite Hn. unfold normalize_branch. now rewrite Hs.
      * apply normalize_branch_idem.
    + destruct e; discriminate.
  - intros pb deps engine u declared rps Hopen Hv Hdep Hd He Hu Hkeys Hb Hrp.
    rewrite (parse_decoded repo_root _ _ Hopen).
    unfold parse_loaded. cbn [Py.as_dict Res.bind].
    rewrite (parse_try_accepts repo_root path _ Hv Hdep Hd He Hu Hkeys Hb Hrp).
    change posixpath.sep with "/"%char. rewrite replace_same. reflexivity.
Qed.

Lemma percent_d_raises (v : json) (e : exn) :
  Py.percent_d v = Raise e -> e = TypeError \/ e = ValueError \/ e = OverflowError.
Proof.
  destruct v as [| | |[| |]| | |]; cbn; intros H; try discriminate;
    injection H as <-; auto.
Qed.

Lemma EngineDep_kwargs_raises (engine : dict) (e : exn) :
  EngineDep_kwargs engine = Raise e -> e = TypeError.
Proof.
  unfold EngineDep_kwargs.
  destruct (forallb _ engine);
    [destruct (Py.lookup engine "url"), (Py.lookup engine "revision"),
       (Py.lookup engine "branch")|];
    intros H; try discriminate; injection H as <-; reflexivity.
Qed.

(** What an exception leaving the [try] of [parse] says of the
    manifest. *)
Lemma parse_try_raises (repo_root path : string) (pb : dict) (py3 : json) (e : exn) :
  parse_try repo_root path pb py3 = Raise e ->
  match e with
  | MalformedRecipesCfg msg p => p = path /\ Malformed pb msg
  | KeyError k => Malformed pb (Str.repr k)
  | _ => True
  end.
Proof.
  intros H.
  destruct (Py.lookup pb "api_version") as [v|] eqn:Ev.
  2:{ unfold parse_try, Py.getitem at 1 in H. rewrite Ev in H.
      injection H as <-. now apply M_no_version. }
  destruct (Py.ne_int v 2) eqn:Ene.
  { unfold parse_try, Py.getitem at 1 in H. rewrite Ev in H.
    cbn [Res.bind] in H. rewrite Ene in H.
    destruct (Py.percent_d v) as [d|e'] eqn:Ed; cbn [Res.bind] in H.
    - injection H as <-. split; [reflexivity|]. now apply M_version with v.
    - injection H as <-.
      destruct (percent_d_raises _ Ed) as [->|[->| ->]]; exact I. }
  assert (Hv : version_ok pb) by (exists v; auto).
  destruct (identifier pb) as [id|] eqn:Eid.
  2:{ unfold parse_try, Py.getitem at 1 in H. rewrite Ev in H.
      cbn [Res.bind] in H. rewrite Ene in H.
      pose proof Eid as Enone. unfold identifier in Eid.
      destruct (Py.truthy (Py.get pb "repo_name" JNull)); [discriminate|].
      cbn [negb] in H. unfold Py.getitem at 1 in H. rewrite Eid in H.
      injection H as <-. now apply M_no_identifier. }
  rewrite (parse_try_identified repo_root path py3 Hv Eid) in H.
  destruct (Py.eq_str id "recipe_engine") eqn:Esent; [discriminate|].
  assert (Hdep : dependent pb) by (exists id; auto).
  destruct (Py.getitem pb "deps") as [deps0|e0] eqn:Edeps; cbn [Res.bind] in H.
  2:{ injection H as <-. apply getitem_Raise in Edeps as [Hnone ->].
      now apply M_no_deps. }
  apply getitem_Ok in Edeps.
  destruct (Py.subscript deps0 "recipe_engine") as [engine0|e0] eqn:Eeng;
    cbn [Res.bind] in H.
  2:{ injection H as <-.
      destruct deps0 as [| | | | | |deps]; cbn in Eeng;
        try (injection Eeng as <-; exact I).
      apply getitem_Raise in Eeng as [Hnone ->].
      now apply M_no_engine with deps. }
  destruct deps0 as [| | | | | |deps]; try discriminate.
  cbn [Py.subscript] in Eeng. apply getitem_Ok in Eeng.
  destruct (Py.contains "url" engine0) as [has|e0] eqn:Eurl; cbn [Res.bind] in H.
  2:{ injection H as <-.
      destruct engine0; cbn in Eurl; try discriminate;
        injection Eurl as <-; exact I. }
  destruct has; cbn [negb] in H.
  2:{ injection H as <-. split; [reflexivity|].
      now apply M_no_url with deps engine0. }
  destruct (Py.as_dict engine0) as [engine|e0] eqn:Edict; cbn [Res.bind] in H.
  2:{ injection H as <-.
      destruct engine0; cbn in Edict; try discriminate;
        injection Edict as <-; exact I. }
  set (e2 := Py.setdefault (Py.setdefault engine "revision" (JStr EmptyString))
               "branch" (JStr "refs/heads/main")) in *.
  destruct (Py.getitem e2 "branch") as [b0|e0] eqn:Eb; cbn [Res.bind] in H.
  2:{ apply getitem_Raise in Eb as [Hnone _]. subst e2.
      rewrite !lookup_setdefault in Hnone. cbn in Hnone.
      destruct (Py.lookup engine "branch"); discriminate. }
  destruct (Py.as_str b0) as [b|e0] eqn:Es; cbn [Res.bind] in H.
  2:{ injection H as <-.
      destruct b0; cbn in Es; try discriminate; injection Es as <-; exact I. }
  destruct (Py.as_str (Py.get pb "recipes_path" (JStr EmptyString)))
    as [rp|e0] eqn:Erp; cbn [Res.bind] in H.
  2:{ injection H as <-.
      destruct (Py.get pb "recipes_path" (JStr EmptyString)); cbn in Erp;
        try discriminate; injection Erp as <-; exact I. }
  match type of H with
  | context [EngineDep_kwargs ?x] =>
      destruct (EngineDep_kwargs x) as [dep|e0] eqn:Ek; cbn [Res.bind] in H
  end; [discriminate|].
  injection H as <-. now rewrite (EngineDep_kwargs_raises _ Ek).
Qed.

(** A malformed manifest makes the [try] of [parse] raise
    [MalformedRecipesCfg], or the [KeyError] that [parse] wraps. *)
Lemma parse_try_of_malformed (repo_root path : string) (pb : dict) (py3 : json)
  (msg : string) :
  Malformed pb msg ->
  parse_try repo_root path pb py3 = Raise (MalformedRecipesCfg msg path) \/
  exists k, parse_try repo_root path pb py3 = Raise (KeyError k) /\ msg = Str.repr k.
Proof.
  intros HM.
  destruct HM as [Hnone | v d Hv Hne Hd | Hv Hid | Hv [id [Hid Hs]] Hdeps
                 | deps Hv [id [Hid Hs]] Hdeps Heng
                 | deps engine Hv [id [Hid Hs]] Hdeps Heng Hurl].
  - right. exists "api_version". split; [|reflexivity].
    unfold parse_try, Py.getitem at 1. now rewrite Hnone.
  - left. unfold parse_try, Py.getitem at 1. rewrite Hv. cbn [Res.bind].
    rewrite Hne, Hd. reflexivity.
  - right. exists "project_id". split; [|reflexivity].
    destruct Hv as [v [Hv Hne]].
    unfold parse_try, Py.getitem at 1. rewrite Hv. cbn [Res.bind]. rewrite Hne.
    unfold identifier in Hid.
    destruct (Py.truthy (Py.get pb "repo_name" JNull)); [discriminate|].
    cbn [negb]. unfold Py.getitem at 1. now rewrite Hid.
  - right. exists "deps". split; [|reflexivity].
    rewrite (parse_try_identified repo_root path py3 Hv Hid), Hs.
    unfold Py.getitem at 1. now rewrite Hdeps.
  - right. exists "recipe_engine". split; [|reflexivity].
    rewrite (parse_try_identified repo_root path py3 Hv Hid), Hs.
    unfold Py.getitem at 1. rewrite Hdeps. cbn [Res.bind Py.subscript].
    unfold Py.getitem at 1. now rewrite Heng.
  - left.
    rewrite (parse_try_identified repo_root path py3 Hv Hid), Hs.
    unfold Py.getitem at 1. rewrite Hdeps. cbn [Res.bind Py.subscript].
    unfold Py.getitem at 1. rewrite Heng. cbn [Res.bind]. rewrite Hurl.
    reflexivity.
Qed.

(** C3, amended: leaving aside the manifests whose [api_version] is
    neither 2 nor a value that [%d] prints, [parse] fails with
    [MalformedRecipesCfg] exactly when the file decodes to a JSON object
    in which: [api_version] is missing, or is other than 2; or, the
    version being 2, [repo_name] is absent or falsy and [project_id] is
    absent; or the identifier is not [recipe_engine] and [deps] is
    missing, or is an object without a [recipe_engine] entry; or that
    entry is an object, an array or a string in which [url] does not
    occur. The exception carries the field and the manifest path, and its
    message is made of both. A file that is not valid JSON makes [parse]
    fail with the decoder's error, which is not [MalformedRecipesCfg]. In
    all these cases no result is returned. *)
Theorem parse_malformed_iff (repo_root path : string) (st : State W)
  (msg p : string) :
  ((forall pb, open_json path (world st) = Decoded (JObj pb) -> version_formats pb) ->
   (fst (parse repo_root path st) = Raise (MalformedRecipesCfg msg p) <->
    p = path /\
    exists pb, open_json path (world st) = Decoded (JObj pb) /\ Malformed pb msg))
  /\ (open_json path (world st) = NotJSON ->
      fst (parse repo_root path st) = Raise JSONDecodeError)
  /\ str_of_exn (MalformedRecipesCfg msg p) =
     "malformed recipes.cfg: " ++ msg ++ ": " ++ Str.repr p.
Proof.
  split; [|split; [|reflexivity]].
  - intros _.
    unfold parse, Mon.bind, Mon.ask, Mon.raise, Mon.lift.
    destruct (open_json path (world st)) as [what| | |pb0] eqn:Eopen; cbn [fst].
    1-3: split; [discriminate | intros [_ [pb [Hd _]]]; discriminate].
    destruct pb0 as [| | | | | |pb];
      try (split; [discriminate | intros [_ [pb' [Hd _]]]; discriminate]).
    unfold parse_loaded. cbn [Py.as_dict Res.bind].
    destruct (parse_try repo_root path pb (Py.get pb "py3_only" (JBool false)))
      as [r|e] eqn:Etry.
    + split; [discriminate|].
      intros [_ [pb' [Hd HM]]]. injection Hd as <-.
      destruct (parse_try_of_malformed repo_root path
                  (Py.get pb "py3_only" (JBool false)) HM) as [H|[k [H _]]];
        congruence.
    + pose proof (parse_try_raises _ _ _ _ Etry) as Hr.
      split.
      * intros H. destruct e; try discriminate.
        -- injection H as <- <-. destruct Hr as [-> HM].
           split; [reflexivity|]. exists pb. auto.
        -- injection H as <- <-. split; [reflexivity|]. exists pb. auto.
      * intros [-> [pb' [Hd HM]]]. injection Hd as <-.
        destruct (parse_try_of_malformed repo_root path
                    (Py.get pb "py3_only" (JBool false)) HM) as [H|[k [H ->]]];
          rewrite Etry in H; injection H as ->; reflexivity.
  - intros Hopen. unfold parse, Mon.bind, Mon.ask. rewrite Hopen. reflexivity.
Qed.

(** A dependency returned by [parse] has a string for its branch, and
    comes with a string for the recipes path. *)
Lemma parse_dependency_shape (repo_root path : string) (st : State W)
  (dep : EngineDep) (rp py3 : json) :
  fst (parse repo_root path st) = Ok (Some dep, rp, py3) ->
  exists rps b, rp = JStr rps /\ branch dep = JStr b.
Proof.
  intros H.
  unfold parse, Mon.bind, Mon.ask, Mon.raise, Mon.lift in H.
  destruct (open_json path (world st)) as [| | |pb0]; try discriminate.
  cbn [fst] in H. unfold parse_loaded in H.
  destruct pb0 as [| | | | | |pb]; try discriminate.
  cbn [Py.as_dict Res.bind] in H.
  destruct (parse_try repo_root path pb (Py.get pb "py3_only" (JBool false)))
    as [r|e] eqn:Etry.
  - injection H as ->.
    destruct (parse_try_dependency _ _ _ _ Etry)
      as (_ & _ & b & _ & _ & _ & Hn & rps & Hrp).
    eauto.
  - destruct e; discriminate.
Qed.

End ParseProperties.

(** ** The command line *)

Section ParseArgsProperties.
Context {W : Type} {L : Library} {Sy : System W}.





End ParseArgsProperties.

(** ** The checkout *)

(** The calls of the managed checkout, as the version-control tool
    receives them. *)
Definition git_init (p : string) : Call :=
  mkCall [GIT; "init"; p] None DevNull Inherit.
Definition git_verify (p rev : string) : Call :=
  mkCall [GIT; "rev-parse"; "--verify"; rev ++ "^{commit}"] (Some p) DevNull DevNull.
Definition git_fetch (p u b : string) : Call :=
  mkCall [GIT; "fetch"; "--quiet"; u; b] (Some p) DevNull Inherit.
Definition git_diff (p rev : string) : Call :=
  mkCall [GIT; "diff"; "--quiet"; rev] (Some p) Inherit Inherit.
Definition git_reset (p rev : string) : Call :=
  mkCall [GIT; "reset"; "-q"; "--hard"; rev] (Some p) Inherit Inherit.
Definition git_clean (p : string) : Call :=
  mkCall [GIT; "clean"; "-qxf"] (Some p) Inherit Inherit.

Definition index_lock_of (p : string) : string :=
  posixpath.join p [".git"; "index.lock"].

(** The calls that change the checkout; [rev-parse] and [diff] only read
    it. *)
Definition state_changing (c : Call) : bool :=
  match argv c with
  | _ :: sub :: _ =>
      existsb (String.eqb sub) ["init"; "fetch"; "reset"; "clean"]
  | _ => false
  end.



(** The state after a child was run: the world it left, the event and the
    line logged before it. *)
Definition ran {W} (st : State W) (c : Call) (w : W) (e : Event) : State W :=
  mkState w (events st ++ [e])
    (logs st ++ [mkLog INFO "Running %r" [AList (map JStr (argv c))]])
    (printed st) (root_level st) (ignored_signals st).

Section CheckoutProperties.
Context {W : Type} {L : Library} {Sy : System W}.

Lemma strings_of_map (a : list string) : strings_of (map JStr a) = Ok a.
Proof. induction a as [|x a IH]; cbn; [|rewrite IH]; reflexivity. Qed.

(** One checked call of the version-control tool on string arguments. *)
Lemma git_check_call_strings (a : list string) (dir : option string)
  (out err : sink) (st : State W) :
  let c := mkCall (GIT :: a) dir out err in
  _git_check_call (map JStr a) dir out err st =
  match run_process c (world st) with
  | (Exited code _, w) =>
      (if code =? 0 then Ok tt else Raise (CalledProcessError code (GIT :: a)),
       ran st c w (Ran c code))
  | (NotStarted what, w) => (Raise (OSError what), ran st c w (RanNot c))
  end.
Proof.
  intros c. unfold _git_check_call, subprocess_check_call, run_child.
  unfold Mon.bind, Mon.log, Mon.lift, Mon.act, Mon.record, Mon.ret, Mon.raise.
  change (JStr GIT :: map JStr a) with (map JStr (GIT :: a)).
  rewrite strings_of_map. cbn [world events logs printed root_level ignored_signals].
  fold c.
  destruct (run_process c (world st)) as [[code o|what] w]; cbn.
  - destruct (code =? 0); reflexivity.
  - reflexivity.
Qed.


(** C4, amended: with an override path that is not empty and a manifest
    that parses to a dependency, [checkout_engine] makes no call at all
    and changes nothing: it returns the override path as it is, with the
    manifest's [py3_only], whatever the dependency's URL. *)
Theorem override_wins (override repo_root path : string) (st : State W)
  (dep : EngineDep) (rp py3 : json) :
  Str.is_empty override = false ->
  fst (parse repo_root path st) = Ok (Some dep, rp, py3) ->
  checkout_engine (Some override) repo_root path st = (Ok (override, py3), st).
Proof.
  intros Hne Hparse.
  pose proof (parse_keeps_state repo_root path st) as Hst.
  unfold checkout_engine, Mon.bind at 1.
  destruct (parse repo_root path st) as [r st']. cbn in Hparse, Hst.
  subst r st'.
  unfold Mon.bind, Mon.ret. cbn [no_path]. rewrite Hne. cbn [no_path].
  rewrite Hne. reflexivity.
Qed.

(** What one checked call of the version-control tool leaves. *)
Definition git_outcome (st : State W) (c : Call) : result unit * State W :=
  match run_process c (world st) with
  | (Exited code _, w) =>
      (if code =? 0 then Ok tt else Raise (CalledProcessError code (argv c)),
       ran st c w (Ran c code))
  | (NotStarted what, w) => (Raise (OSError what), ran st c w (RanNot c))
  end.

Lemma git_call2 (a b : string) dir out err (st : State W) :
  _git_check_call [JStr a; JStr b] dir out err st =
  git_outcome st (mkCall [GIT; a; b] dir out err).
Proof. apply (git_check_call_strings [a; b]). Qed.

Lemma git_call3 (a b c : string) dir out err (st : State W) :
  _git_check_call [JStr a; JStr b; JStr c] dir out err st =
  git_outcome st (mkCall [GIT; a; b; c] dir out err).
Proof. apply (git_check_call_strings [a; b; c]). Qed.

Lemma git_call4 (a b c d : string) dir out err (st : State W) :
  _git_check_call [JStr a; JStr b; JStr c; JStr d] dir out err st =
  git_outcome st (mkCall [GIT; a; b; c; d] dir out err).
Proof. apply (git_check_call_strings [a; b; c; d]). Qed.

(** A call with an argument that is not a string is refused before any
    child runs. *)
Lemma git_call_not_strings (l : list json) dir out err (st : State W) (e : exn) :
  strings_of (JStr GIT :: l) = Raise e ->
  _git_check_call l dir out err st =
  (Raise e, mkState (world st) (events st)
              (logs st ++ [mkLog INFO "Running %r" [AList (JStr GIT :: l)]])
              (printed st) (root_level st) (ignored_signals st)).
Proof.
  intros H. unfold _git_check_call, subprocess_check_call.
  unfold Mon.bind, Mon.log, Mon.lift. rewrite H. reflexivity.
Qed.

(** Symbolic execution of a run kept in the hypothesis [E]. *)
Ltac run_step E :=
  first
    [ rewrite git_call2 in E
    | rewrite git_call3 in E
    | rewrite git_call4 in E
    | erewrite git_call_not_strings in E by reflexivity
    | progress unfold git_outcome in E
    | progress cbn [world events logs printed root_level ignored_signals ran
                    fst snd argv negb] in E
    | match type of E with
      | context [?c =? ?d] => destruct (Z.eqb_spec c d)
      end
    | match type of E with
      | context [run_process ?c ?w] =>
          let code := fresh "code" in
          let Hrun := fresh "Hrun" in
          destruct (run_process c w) as [[code ?|?] ?] eqn:Hrun
      | context [os_remove ?l ?w] =>
          let Hrm := fresh "Hrm" in
          destruct (os_remove l w) as [[|? ?] ?] eqn:Hrm
      end ].

Ltac run_all E :=
  unfold Mon.bind, Mon.except_CalledProcessError, Mon.ret, Mon.raise, Mon.lift,
    Mon.act, Mon.record, Mon.log in E;
  repeat run_step E.

(** Use the facts at hand to settle the tests on exit statuses. *)
Ltac settle_codes :=
  subst;
  repeat match goal with
    | H : ?c <> 0 |- context [?c =? 0] => rewrite (proj2 (Z.eqb_neq c 0) H)
    end;
  cbn [Z.eqb app].

(** With no override and a dependency whose URL is not a local file,
    [checkout_engine] is the managed checkout. *)
Lemma checkout_engine_managed (engine_path : option string)
  (repo_root path : string) (st : State W) (dep : EngineDep) (rp py3 : json)
  (u : string) :
  no_path engine_path = true ->
  fst (parse repo_root path st) = Ok (Some dep, rp, py3) ->
  url dep = JStr u ->
  Str.startswith "file://" u = false ->
  checkout_engine engine_path repo_root path st =
  (let (r, st1) := managed_checkout dep rp st in
   match r with
   | Ok p => (Ok (p, py3), st1)
   | Raise e => (Raise e, st1)
   end).
Proof.
  intros Hno Hparse Hu Hfile.
  pose proof (parse_keeps_state repo_root path st) as Hst.
  unfold checkout_engine, Mon.bind at 1.
  destruct (parse repo_root path st) as [r st0]. cbn in Hparse, Hst.
  subst r st0.
  unfold Mon.bind, Mon.ret, Mon.lift. rewrite Hno, Hu. cbn [Py.as_str].
  rewrite Hfile, Hno. reflexivity.
Qed.

(** C1, amended: with no override and a dependency whose URL is not a
    local file, a run of [checkout_engine] that returns has made exactly
    these calls, each exiting with 0 unless said otherwise: [init];
    [rev-parse --verify] of the pinned revision, with any status, followed
    by a [fetch] of the pinned branch from the URL exactly when that status
    is not 0; [diff --quiet] against the revision, with any status, followed
    exactly when that status is not 0 by the removal of the index lock and
    [reset -q --hard] to the revision; and [clean -qxf] last. So the fetch
    precedes the reset, the clean follows it, and HEAD is moved, to the
    pinned revision, exactly when the tracked files differ from it. *)
Theorem managed_reconciliation (engine_path : option string)
  (repo_root path : string) (st st' : State W) (dep : EngineDep)
  (rp py3 py3' : json) (u p : string) :
  no_path engine_path = true ->
  fst (parse repo_root path st) = Ok (Some dep, rp, py3) ->
  url dep = JStr u ->
  Str.startswith "file://" u = false ->
  checkout_engine engine_path repo_root path st = (Ok (p, py3'), st') ->
  exists rps rev b c_verify c_diff removal,
    rp = JStr rps /\ revision dep = JStr rev /\ branch dep = JStr b /\
    p = posixpath.join rps [".recipe_deps"; "recipe_engine"] /\
    py3' = py3 /\
    events st' =
    (events st
     ++ [Ran (git_init p) 0; Ran (git_verify p rev) c_verify]
     ++ (if c_verify =? 0 then [] else [Ran (git_fetch p u b) 0])
     ++ [Ran (git_diff p rev) c_diff]
     ++ (if c_diff =? 0 then []
         else [Unlinked (index_lock_of p) removal; Ran (git_reset p rev) 0])
     ++ [Ran (git_clean p) 0])%list.
Proof.
  intros Hno Hparse Hu Hfile E.
  rewrite (checkout_engine_managed _ _ _ _ Hno Hparse Hu Hfile) in E.
  destruct (parse_dependency_shape _ _ _ Hparse) as (rps & b & -> & Hb).
  unfold managed_checkout, reset_and_clean in E. rewrite Hu, Hb in E.
  cbn [join_under] in E.
  set (q := posixpath.join rps [".recipe_deps"; "recipe_engine"]) in *.
  destruct (revision dep) as [| | | |rev| |] eqn:Hrev.
  5:{ cbn [percent_s] in E. run_all E; try discriminate.
      all: injection E as <- <- <-.
      all: exists rps, rev, b.
      all: match goal with
           | H : run_process (mkCall (_ :: "rev-parse" :: _) _ _ _) _ = (Exited ?c _, _)
             |- _ => exists c
           end.
      all: match goal with
           | H : run_process (mkCall (_ :: "diff" :: _) _ _ _) _ = (Exited ?c _, _)
             |- _ => exists c
           end.
      all: first [ match goal with
                   | H : os_remove _ _ = (?o, _) |- _ => exists o
                   end
                 | exists RemoveDone ].
      all: repeat split; try reflexivity; try assumption.
      all: settle_codes; cbn [events ran]; rewrite <- ?app_assoc; reflexivity. }
  all: run_all E; try discriminate.

Qed.

(** C2, amended: in a managed checkout whose [diff --quiet] against the
    revision exits with 0, the index lock is not removed and no [reset] is
    made; the calls are [init], [rev-parse --verify], a [fetch] exactly
    when the revision did not resolve, the [diff], and then [clean -qxf],
    which still runs. *)
Theorem fast_path_calls (engine_path : option string)
  (repo_root path : string) (st : State W) (dep : EngineDep)
  (rp py3 : json) (u : string) :
  no_path engine_path = true ->
  fst (parse repo_root path st) = Ok (Some dep, rp, py3) ->
  url dep = JStr u ->
  Str.startswith "file://" u = false ->
  exists rps b new,
    rp = JStr rps /\ branch dep = JStr b /\
    events (snd (checkout_engine engine_path repo_root path st)) =
      (events st ++ new)%list /\
    let p := posixpath.join rps [".recipe_deps"; "recipe_engine"] in
    forall rev,
      In (Ran (git_diff p rev) 0) new ->
      exists c_verify last,
        new =
        ([Ran (git_init p) 0; Ran (git_verify p rev) c_verify]
         ++ (if c_verify =? 0 then [] else [Ran (git_fetch p u b) 0])
         ++ [Ran (git_diff p rev) 0; last])%list /\
        (last = RanNot (git_clean p) \/ exists c, last = Ran (git_clean p) c).
Proof.
  intros Hno Hparse Hu Hfile.
  rewrite (checkout_engine_managed _ _ _ _ Hno Hparse Hu Hfile).
  destruct (parse_dependency_shape _ _ _ Hparse) as (rps & b & -> & Hb).
  exists rps, b.
  destruct (managed_checkout dep (JStr rps) st) as [r st1] eqn:E.
  unfold managed_checkout, reset_and_clean in E. rewrite Hu, Hb in E.
  cbn [join_under] in E.
  set (q := posixpath.join rps [".recipe_deps"; "recipe_engine"]) in *.
  assert (Hgoal : exists new, events st1 = (events st ++ new)%list /\
            forall rev, In (Ran (git_diff q rev) 0) new ->
            exists c_verify last,
              new =
              ([Ran (git_init q) 0; Ran (git_verify q rev) c_verify]
               ++ (if c_verify =? 0 then [] else [Ran (git_fetch q u b) 0])
               ++ [Ran (git_diff q rev) 0; last])%list /\
              (last = RanNot (git_clean q) \/ exists c, last = Ran (git_clean q) c)).
  2:{ destruct Hgoal as (new & Hev & Hnew). exists new.
      split; [reflexivity|]. split; [assumption|].
      split; [destruct r; exact Hev | exact Hnew]. }
  destruct (revision dep) as [| | | |rev| |] eqn:Hrev.
  5:{ cbn [percent_s] in E. run_all E.
      all: injection E as <- <-.
      all: cbn [events ran]; rewrite <- ?app_assoc; cbn [app].
      all: eexists; split; [reflexivity|].
      all: intros rev' Hin; cbn [In] in Hin.
      all: repeat match goal with
             | H : _ \/ _ |- _ => destruct H as [H|H]
             | H : False |- _ => destruct H
             | H : Ran _ _ = Ran _ _ |- _ =>
                 first [ discriminate H
                       | injection H as H; subst; try contradiction ]
             | H : RanNot _ = Ran _ _ |- _ => discriminate H
             | H : Unlinked _ _ = Ran _ _ |- _ => discriminate H
             end.
      all: match goal with
           | H : run_process (mkCall (_ :: "rev-parse" :: _) _ _ _) _ = (Exited ?c _, _)
             |- _ => exists c
           end.
      all: eexists; settle_codes.
      all: split; [reflexivity|].
      all: first [left; reflexivity | right; eexists; reflexivity]. }
  all: run_all E.
  all: injection E as <- <-.
  all: cbn [events ran]; rewrite <- ?app_assoc; cbn [app].
  all: eexists; split; [reflexivity|].
  all: intros rev' Hin; cbn [In] in Hin.
  all: repeat match goal with
         | H : _ \/ _ |- _ => destruct H as [H|H]
         | H : False |- _ => destruct H
         | H : Ran _ _ = Ran _ _ |- _ => discriminate H
         | H : RanNot _ = Ran _ _ |- _ => discriminate H
         end.
Qed.


End CheckoutProperties.

(** ** The launcher *)

(** The message of [RequiredBinaryNotFound] for a binary. *)
Definition missing_msg (b : string) : string :=
  "Required binary is not found on PATH: " ++ b.

(** The state with one more line printed. *)
Definition printing {W} (st : State W) (line : string) : State W :=
  mkState (world st) (events st) (logs st) (printed st ++ [line])
    (root_level st) (ignored_signals st).

(** The runtime the launcher picks in a world, for a [py3_only] flag. *)
Definition chosen_vpython {W} `{System W} (py3_only : json) (w : W) : string :=
  vpython_name
    (Py.truthy py3_only
     || match os_getenv "RECIPES_USE_PY3" w with
        | Some v => String.eqb v "true"
        | None => false
        end).

Section MainProperties.
Context {W : Type} {L : Library} {Sy : System W}.

Lemma main_reports (st st' : State W) (msg : string) :
  main_try st = (Raise (RequiredBinaryNotFound msg), st') ->
  main st = (Ok (Returned 1), printing st' msg).
Proof. intros H. unfold main. rewrite H. reflexivity. Qed.

Lemma require_binaries_run (st : State W) :
  require_binaries (REQUIRED_BINARIES (git_hashes_first (world st))) st =
  (match
      find (fun b => negb (shutil_which b (world st)))
        (REQUIRED_BINARIES (git_hashes_first (world st)))
    with
    | Some b => Raise (RequiredBinaryNotFound (missing_msg b))
    | None => Ok tt
    end, st).
Proof.
  unfold REQUIRED_BINARIES.
  destruct (git_hashes_first (world st));
    cbn [require_binaries find]; unfold Mon.bind, _is_on_path, Mon.ask, Mon.raise, Mon.ret;
    destruct (shutil_which GIT (world st)) eqn:Eg,
      (shutil_which CIPD (world st)) eqn:Ec;
    cbn [negb]; rewrite ?Eg, ?Ec; reflexivity.
Qed.

(** C5, amended: when [git] or [cipd] is not on the search path, [main]
    prints the message naming one of them that is missing (the first one
    missing in the iteration order of the set) and returns 1, having done
    nothing else: no call, no log, the world as it was. The runtime
    ([vpython] or [vpython3]) is looked for only once [checkout_engine] has
    returned, since the manifest decides which one it is: when it is then
    missing, [main] prints the message naming it and returns 1, after the
    checkout's calls. *)
Theorem missing_binary_reported (st : State W) :
  (shutil_which GIT (world st) = false \/ shutil_which CIPD (world st) = false ->
   exists b,
     (b = GIT \/ b = CIPD) /\ shutil_which b (world st) = false /\
     main st = (Ok (Returned 1), printing st (missing_msg b)) /\
     exit_status (fst (main st)) = Some 1)
  /\
  (forall engine_override repo_root path args engine_path py3_only st1 st2,
      main_resolve st = (Ok (engine_override, repo_root, path, args), st1) ->
      checkout_engine engine_override repo_root path st1 =
        (Ok (engine_path, py3_only), st2) ->
      shutil_which (chosen_vpython py3_only (world st2)) (world st2) = false ->
      main st = (Ok (Returned 1),
                 printing st2 (missing_msg (chosen_vpython py3_only (world st2)))) /\
      exit_status (fst (main st)) = Some 1).
Proof.
  split.
  - intros Hmiss.
    assert (Hfind : exists b, (b = GIT \/ b = CIPD) /\ shutil_which b (world st) = false /\
              find (fun b => negb (shutil_which b (world st)))
                (REQUIRED_BINARIES (git_hashes_first (world st))) = Some b).
    { unfold REQUIRED_BINARIES.
      destruct (git_hashes_first (world st)); cbn [find];
        destruct (shutil_which GIT (world st)) eqn:Eg,
          (shutil_which CIPD (world st)) eqn:Ec; cbn [negb];
        destruct Hmiss; try discriminate; eauto. }
    destruct Hfind as (b & Hb & Hwhich & Hfind).
    exists b. split; [assumption|]. split; [assumption|].
    assert (Hmain : main st = (Ok (Returned 1), printing st (missing_msg b))).
    { apply main_reports. unfold main_try, main_resolve.
      unfold Mon.bind at 1 2 3. unfold Mon.ask at 1.
      rewrite require_binaries_run, Hfind. reflexivity. }
    split; [exact Hmain|]. now rewrite Hmain.
  - intros eo repo path args ep py3 st1 st2 Hres Hco Hwhich.
    assert (Hmain : main st = (Ok (Returned 1),
              printing st2 (missing_msg (chosen_vpython py3 (world st2))))).
    { apply main_reports. unfold main_try. unfold Mon.bind at 1.
      rewrite Hres. unfold Mon.bind at 1. rewrite Hco.
      unfold main_launch, Mon.bind, Mon.ask, _is_on_path, Mon.raise.
      cbv beta zeta. unfold Mon.ask. cbv beta.
      unfold chosen_vpython in Hwhich. rewrite Hwhich.
      reflexivity. }
    split; [exact Hmain|]. now rewrite Hmain.
Qed.

Lemma normpath_not_empty (p : string) : Str.is_empty (posixpath.normpath p) = false.
Proof.
  unfold posixpath.normpath.
  destruct (Str.is_empty p); [reflexivity|].
  cbv zeta.
  match goal with
  | |- Str.is_empty (if Str.is_empty ?x then _ else _) = false =>
      destruct (Str.is_empty x) eqn:E; [reflexivity | exact E]
  end.
Qed.

Lemma abspath_not_empty (dir p : string) :
  Str.is_empty (posixpath.abspath dir p) = false.
Proof. apply normpath_not_empty. Qed.

(** The call that asks for the enclosing repository, line 247. *)
Definition git_toplevel (w : W) : Call :=
  mkCall [GIT; "rev-parse"; "--show-toplevel"]
    (Some (posixpath.abspath (os_getcwd w) (posixpath.dirname (script_file w))))
    Pipe Inherit.

Lemma git_output_toplevel (dir : option string) (st : State W) :
  _git_output [JStr "rev-parse"; JStr "--show-toplevel"] dir st =
  let c := mkCall [GIT; "rev-parse"; "--show-toplevel"] dir Pipe Inherit in
  match run_process c (world st) with
  | (Exited code out, w) =>
      (if code =? 0 then Ok out else Raise (CalledProcessError code (argv c)),
       ran st c w (Ran c code))
  | (NotStarted what, w) => (Raise (OSError what), ran st c w (RanNot c))
  end.
Proof.
  unfold _git_output, subprocess_check_output, run_child.
  unfold Mon.bind, Mon.log, Mon.lift, Mon.act, Mon.record, Mon.ret, Mon.raise.
  cbn [strings_of world events logs printed root_level ignored_signals].
  destruct (run_process _ (world st)) as [[code o|what] w]; cbn.
  - destruct (code =? 0); reflexivity.
  - reflexivity.
Qed.

End MainProperties.

(** * Concrete runs *)

Module Runs.
Import Double.

Definition cfg : string := "/r/infra/config/recipes.cfg".

(** A client repository pinning the engine at revision B. *)
Definition engine_entry : dict :=
  [("url", JStr "https://example.org/recipes-py.git");
   ("branch", JStr "main");
   ("revision", JStr "B")].

Definition client_manifest : dict :=
  [("api_version", JInt 2);
   ("repo_name", JStr "build");
   ("recipes_path", JStr "infra");
   ("deps", JObj [("recipe_engine", JObj engine_entry)])].

(** The engine's own repository; its manifest still lists [deps]. *)
Definition engine_manifest : dict :=
  [("api_version", JInt 2);
   ("project_id", JStr "recipe_engine");
   ("recipes_path", JStr "recipes");
   ("py3_only", JBool true);
   ("deps", JObj [("recipe_engine", JObj engine_entry)])].

(** A client whose entry for the engine holds a [url] and nothing else. *)
Definition bare_entry : dict :=
  [("url", JStr "https://example.org/recipes-py.git")].

Definition bare_manifest : dict :=
  [("api_version", JInt 2);
   ("repo_name", JStr "build");
   ("deps", JObj [("recipe_engine", JObj bare_entry)])].

(** A manifest of a version that is not supported. *)
Definition old_manifest : dict := [("api_version", JInt 1)].

Definition pin : EngineDep :=
  mkEngineDep (JStr "https://example.org/recipes-py.git") (JStr "B")
    (JStr "refs/heads/main").

Definition checkout : string := "/r/infra/.recipe_deps/recipe_engine".

Definition world_with (manifest : dict) (bins cmd : list string)
  (kn rem : list string) (h : string) (wt : nat) (lk : lock) : World :=
  mkWorld [(cfg, JObj manifest)] ["/r/broken.cfg"] bins cmd "/r" "/r/recipes.py" []
    "/r" true kn rem [("A", 1%nat); ("B", 2%nat)] h wt ["main.pyc"] lk.

Definition all_bins : list string := ["git"; "cipd"; "vpython"; "vpython3"].

(** HEAD is at A while the tracked files are those of B. *)
Definition w_fast : World :=
  world_with client_manifest all_bins ["recipes.py"; "--package"; cfg]
    ["A"; "B"] [] "A" 2%nat NoLock.

(** HEAD and files at A, B not fetched yet, a stale lock left behind. *)
Definition w_stale : World :=
  world_with client_manifest all_bins ["recipes.py"; "--package"; cfg]
    ["A"] ["B"] "A" 1%nat StaleLock.

(** As [w_stale] once B is fetched, with a lock that cannot be removed. *)
Definition w_stuck : World :=
  world_with client_manifest all_bins ["recipes.py"; "--package"; cfg]
    ["A"; "B"] [] "A" 1%nat StuckLock.

(** A repository whose manifest leaves the branch and the revision out. *)
Definition w_defaults : World :=
  world_with bare_manifest all_bins ["recipes.py"; "--package"; cfg]
    ["A"; "B"] [] "A" 1%nat NoLock.

(** The engine's own repository. *)
Definition w_self : World :=
  world_with engine_manifest all_bins ["recipes.py"; "--package"; cfg]
    [] [] "A" 1%nat NoLock.

(** A repository whose manifest has an old version. *)
Definition w_old : World :=
  world_with old_manifest all_bins ["recipes.py"; "--package"; cfg]
    [] [] "A" 1%nat NoLock.

(** At B already, and no runtime on the search path. *)
Definition w_no_runtime : World :=
  world_with client_manifest ["git"; "cipd"] ["recipes.py"; "--package"; cfg]
    ["B"] [] "B" 2%nat NoLock.

(** No [cipd] on the search path. *)
Definition w_no_cipd : World :=
  world_with client_manifest ["git"; "vpython"] ["recipes.py"; "--package"; cfg]
    ["B"] [] "B" 2%nat NoLock.

(** Launched with overrides and no [--package]. *)
Definition w_bare : World :=
  world_with client_manifest all_bins
    ["recipes.py"; "-O"; "depot_tools=/d"; "-O"; "recipe_engine=/e1";
     "--project-override"; "recipe_engine=/e2"; "run"]
    ["B"] [] "B" 2%nat NoLock.

End Runs.

Import Double Runs.

(** The engine's manifest is read as self-hosting. *)
Lemma parse_self_hosting_witness :
  version_ok engine_manifest /\ self_hosting engine_manifest /\
  parse "/r" cfg (start w_self) =
  (Ok (None, JStr "recipes", JBool true), start w_self).
Proof.
  assert (Hv : version_ok engine_manifest)
    by (exists (JInt 2); split; reflexivity).
  assert (Hs : self_hosting engine_manifest) by reflexivity.
  split; [exact Hv|]. split; [exact Hs|].
  exact (parse_self_hosting "/r" cfg (pb:=engine_manifest) (start w_self)
           eq_refl Hv Hs).
Defined.

(** The short name [main] is read as [refs/heads/main]. *)

(** A manifest of version 1 is refused with the version in the message. *)
Lemma parse_branch_normalized_witness :
  parse "/r" cfg (start w_defaults) =
    (Ok (Some (mkEngineDep (JStr "https://example.org/recipes-py.git")
                 (JStr EmptyString) (JStr "refs/heads/main")),
         JStr "/r/", JBool false), start w_defaults) /\
  (fst (parse "/r" cfg (start w_fast)) = Ok (Some pin, JStr "/r/infra", JBool false) /\
   exists pb deps engine declared,
     open_json cfg (world (start w_fast)) = Decoded (JObj pb) /\
     Py.lookup pb "deps" = Some (JObj deps) /\
     Py.lookup deps "recipe_engine" = Some (JObj engine) /\
     Py.get engine "branch" (JStr "refs/heads/main") = JStr declared /\
     branch pin = JStr (normalize_branch declared) /\
     (Py.lookup engine "branch" = None -> branch pin = JStr "refs/heads/main") /\
     (Str.startswith "refs/" declared = false ->
      branch pin = JStr ("refs/heads/" ++ declared)) /\
     (Str.startswith "refs/" declared = true -> branch pin = JStr declared) /\
     normalize_branch (normalize_branch declared) = normalize_branch declared).
Proof.
  split.
  - assert (Hv : version_ok bare_manifest)
      by (exists (JInt 2); split; reflexivity).
    assert (Hd : dependent bare_manifest)
      by (exists (JStr "build"); split; reflexivity).
    assert (Hkeys : forall key value,
               In (key, value) bare_entry ->
               key = "url" \/ key = "revision" \/ key = "branch").
    { intros key value [H|[]]. injection H as <- _. left. reflexivity. }
    exact (proj2 (parse_branch_normalized "/r" cfg (start w_defaults))
             bare_manifest [("recipe_engine", JObj bare_entry)] bare_entry
             (JStr "https://example.org/recipes-py.git") "refs/heads/main"
             EmptyString eq_refl Hv Hd eq_refl eq_refl eq_refl Hkeys
             eq_refl eq_refl).
  - assert (H : fst (parse "/r" cfg (start w_fast)) =
                Ok (Some pin, JStr "/r/infra", JBool false))
      by (vm_compute; reflexivity).
    split; [exact H|].
    exact (proj1 (parse_branch_normalized "/r" cfg (start w_fast)) _ _ _ H).
Defined.


Lemma parse_malformed_witness :
  fst (parse "/r" cfg (start w_old)) =
  Raise (MalformedRecipesCfg "unknown version 1" cfg) /\
  str_of_exn (MalformedRecipesCfg "unknown version 1" cfg) =
  "malformed recipes.cfg: unknown version 1: '/r/infra/config/recipes.cfg'".
Proof.
  split; [|reflexivity].
  assert (Hfmt : forall pb,
             open_json cfg (world (start w_old)) = Decoded (JObj pb) ->
             version_formats pb).
  { intros pb H. vm_compute in H. injection H as <-.
    intros v Hv _. vm_compute in Hv. injection Hv as <-.
    exists "1". reflexivity. }
  apply (proj2 (proj1 (parse_malformed_iff "/r" cfg (start w_old)
                         "unknown version 1" cfg) Hfmt)).
  split; [reflexivity|].
  exists old_manifest. split; [reflexivity|].
  apply (@M_version old_manifest (JInt 1) "1"); reflexivity.
Defined.

(** A file that is not JSON is refused by the decoder, not as a malformed
    manifest. *)
Lemma parse_not_json_counterexample :
  open_json "/r/broken.cfg" (world (start w_old)) = NotJSON /\
  fst (parse "/r" "/r/broken.cfg" (start w_old)) = Raise JSONDecodeError /\
  (forall msg p,
      fst (parse "/r" "/r/broken.cfg" (start w_old)) <>
      Raise (MalformedRecipesCfg msg p)).
Proof.
  split; [reflexivity|]. split; [reflexivity|].
  intros msg p H. discriminate H.
Qed.

(** A version given as the string 2 is refused with a [TypeError]. *)
Example parse_version_string :
  parse_loaded "/r" cfg (JObj [("api_version", JStr "2")]) = Raise TypeError.
Proof. reflexivity. Qed.

(** An entry for the engine that is a number is refused with a
    [TypeError]: the test for [url] needs a container. *)
Example parse_entry_number :
  parse_loaded "/r" cfg
    (JObj [("api_version", JInt 2); ("repo_name", JStr "build");
           ("deps", JObj [("recipe_engine", JInt 5)])]) = Raise TypeError.
Proof. reflexivity. Qed.


(** An override is returned as it is and nothing is run. *)
Lemma override_wins_witness :
  Str.is_empty "/over" = false /\
  fst (parse "/r" cfg (start w_fast)) = Ok (Some pin, JStr "/r/infra", JBool false) /\
  checkout_engine (Some "/over") "/r" cfg (start w_fast) =
  (Ok ("/over", JBool false), start w_fast).
Proof.
  assert (H : fst (parse "/r" cfg (start w_fast)) =
              Ok (Some pin, JStr "/r/infra", JBool false)) by reflexivity.
  split; [reflexivity|]. split; [exact H|].
  exact (override_wins "/over" "/r" cfg (start w_fast) eq_refl H).
Defined.

(** In the engine's own repository the override is not what is returned;
    and an override that is the empty string starts the managed
    checkout. *)
Lemma override_counterexample :
  fst (parse "/r" cfg (start w_self)) = Ok (None, JStr "recipes", JBool true) /\
  fst (checkout_engine (Some "/over") "/r" cfg (start w_self)) =
    Ok ("/r/recipes", JBool true) /\
  "/r/recipes" <> "/over" /\
  fst (checkout_engine (Some EmptyString) "/r" cfg (start w_fast)) =
    Ok (checkout, JBool false) /\
  events (snd (checkout_engine (Some EmptyString) "/r" cfg (start w_fast))) =
    [Ran (git_init checkout) 0; Ran (git_verify checkout "B") 0;
     Ran (git_diff checkout "B") 0; Ran (git_clean checkout) 0].
Proof.
  split; [reflexivity|]. split; [reflexivity|]. split; [discriminate|].
  split; reflexivity.
Qed.

(** A checkout at A with a stale lock is fetched, reset to B and cleaned. *)
Lemma managed_reconciliation_witness :
  let run := checkout_engine None "/r" cfg (start w_stale) in
  fst run = Ok (checkout, JBool false) /\
  HEAD (world (snd run)) = "B" /\
  exists c_verify c_diff removal,
    events (snd run) =
    ([Ran (git_init checkout) 0; Ran (git_verify checkout "B") c_verify]
     ++ (if c_verify =? 0 then []
         else [Ran (git_fetch checkout "https://example.org/recipes-py.git"
                      "refs/heads/main") 0])
     ++ [Ran (git_diff checkout "B") c_diff]
     ++ (if c_diff =? 0 then []
         else [Unlinked (index_lock_of checkout) removal;
               Ran (git_reset checkout "B") 0])
     ++ [Ran (git_clean checkout) 0])%list.
Proof.
  intros run.
  split; [vm_compute; reflexivity|]. split; [vm_compute; reflexivity|].
  assert (Hparse : fst (parse "/r" cfg (start w_stale)) =
                   Ok (Some pin, JStr "/r/infra", JBool false))
    by (vm_compute; reflexivity).
  assert (Hrun : checkout_engine None "/r" cfg (start w_stale) =
                 (Ok (checkout, JBool false), snd run))
    by (vm_compute; reflexivity).
  destruct (managed_reconciliation None "/r" cfg (start w_stale)
              (u:="https://example.org/recipes-py.git")
              eq_refl Hparse eq_refl eq_refl Hrun)
    as (rps & rev & b & c_verify & c_diff & removal
        & Hrp & Hrev & Hb & _ & _ & Hev).
  vm_compute in Hrev, Hb.
  injection Hrev as <-. injection Hb as <-.
  exists c_verify, c_diff, removal.
  vm_compute in Hev. vm_compute. exact Hev.
Defined.

(** With HEAD at A and the tracked files equal to those of B, the run
    succeeds and HEAD is still at A. *)
Lemma fast_path_keeps_HEAD_counterexample :
  let run := checkout_engine None "/r" cfg (start w_fast) in
  fst (parse "/r" cfg (start w_fast)) = Ok (Some pin, JStr "/r/infra", JBool false) /\
  revision pin = JStr "B" /\
  fst run = Ok (checkout, JBool false) /\
  HEAD (world (snd run)) = "A" /\
  "A" <> "B".
Proof.
  cbv zeta. repeat split; try (vm_compute; reflexivity). discriminate.
Qed.

(** On the fast path the calls are [init], [rev-parse], [diff] and
    [clean]. *)
Lemma fast_path_calls_witness :
  let run := checkout_engine None "/r" cfg (start w_fast) in
  In (Ran (git_diff checkout "B") 0) (events (snd run)) /\
  exists c_verify last,
    events (snd run) =
    ([Ran (git_init checkout) 0; Ran (git_verify checkout "B") c_verify]
     ++ (if c_verify =? 0 then []
         else [Ran (git_fetch checkout "https://example.org/recipes-py.git"
                      "refs/heads/main") 0])
     ++ [Ran (git_diff checkout "B") 0; last])%list /\
    (last = RanNot (git_clean checkout) \/
     exists c, last = Ran (git_clean checkout) c).
Proof.
  intros run.
  assert (Hin : In (Ran (git_diff checkout "B") 0) (events (snd run)))
    by (vm_compute; right; right; left; reflexivity).
  split; [exact Hin|].
  assert (Hparse : fst (parse "/r" cfg (start w_fast)) =
                   Ok (Some pin, JStr "/r/infra", JBool false))
    by (vm_compute; reflexivity).
  destruct (fast_path_calls None "/r" cfg (start w_fast)
              (u:="https://example.org/recipes-py.git")
              eq_refl Hparse eq_refl eq_refl)
    as (rps & b & new & Hrp & Hb & Hev & Hnew).
  vm_compute in Hb. injection Hrp as <-. injection Hb as <-.
  assert (Hnew' : new = events (snd run))
    by (vm_compute in Hev; vm_compute; symmetry; exact Hev).
  subst new.
  destruct (Hnew "B" Hin) as (c_verify & last & Hshape & Hlast).
  exists c_verify, last. split; [exact Hshape | exact Hlast].
Defined.

(** On the fast path [clean -qxf] is run all the same, and removes the
    untracked files. *)
Lemma fast_path_cleans_counterexample :
  let run := checkout_engine None "/r" cfg (start w_fast) in
  In (Ran (git_diff checkout "B") 0) (events (snd run)) /\
  In (Ran (git_clean checkout) 0) (events (snd run)) /\
  state_changing (git_clean checkout) = true /\
  untracked w_fast = ["main.pyc"] /\
  untracked (world (snd run)) = [].
Proof.
  cbv zeta. split; [vm_compute; right; right; left; reflexivity|].
  split; [vm_compute; right; right; right; left; reflexivity|].
  repeat split; vm_compute; reflexivity.
Qed.


(** Without [cipd], [main] reports it and does nothing else. *)
Lemma missing_binary_reported_witness :
  shutil_which CIPD (world (start w_no_cipd)) = false /\
  main (start w_no_cipd) =
    (Ok (Returned 1), printing (start w_no_cipd) (missing_msg CIPD)) /\
  printed (snd (main (start w_no_cipd))) =
    ["Required binary is not found on PATH: cipd"].
Proof.
  split; [reflexivity|].
  assert (Hmiss : shutil_which GIT (world (start w_no_cipd)) = false \/
                  shutil_which CIPD (world (start w_no_cipd)) = false)
    by (right; reflexivity).
  destruct (proj1 (missing_binary_reported (start w_no_cipd)) Hmiss)
    as (b & [Hb|Hb] & Hwhich & Hmain & _); subst b.
  - discriminate Hwhich.
  - split; [exact Hmain | rewrite Hmain; reflexivity].
Defined.

(** Without the runtime, [main] reports it only after the checkout has
    been reconciled. *)
Lemma runtime_checked_late_counterexample :
  let run := main (start w_no_runtime) in
  shutil_which "vpython" w_no_runtime = false /\
  fst run = Ok (Returned 1) /\
  printed (snd run) = ["Required binary is not found on PATH: vpython"] /\
  events (snd run) =
    [Ran (git_init checkout) 0; Ran (git_verify checkout "B") 0;
     Ran (git_diff checkout "B") 0; Ran (git_clean checkout) 0].
Proof. cbv zeta. repeat split; vm_compute; reflexivity. Qed.

(** Launched without [--package], [main] asks for the toplevel and puts
    the manifest path before the arguments. *)
(** The toplevel is used as printed, with the end of line that follows
    it: the manifest is then looked for under a directory of that name. *)
Example toplevel_used_as_printed :
  fst (main_resolve (start w_bare)) =
    Ok (Some "/e1", "/r" ++ NL,
        "/r" ++ NL ++ "/infra/config/recipes.cfg",
        "--package" :: ("/r" ++ NL ++ "/infra/config/recipes.cfg")
          :: List.tl (cmdline w_bare)) /\
  fst (main (start w_bare)) = Raise (OSError "No such file or directory").
Proof. split; reflexivity. Qed.

(** * More on the manifest parser *)

Section MoreParse.
Context {W : Type} {Sy : System W}.

(** A result of [parse] comes from a file that decodes to an object, and
    is the result of the [try] on it. *)
Lemma parse_returns (repo_root path : string) (st : State W) (r : ParseResult) :
  fst (parse repo_root path st) = Ok r ->
  exists pb,
    open_json path (world st) = Decoded (JObj pb) /\
    parse_try repo_root path pb (Py.get pb "py3_only" (JBool false)) = Ok r.
Proof.
  unfold parse, Mon.bind, Mon.ask, Mon.raise, Mon.lift.
  destruct (open_json path (world st)) as [| | |pb0]; try discriminate.
  cbn [fst]. unfold parse_loaded.
  destruct pb0 as [| | | | | |pb]; try discriminate.
  cbn [Py.as_dict Res.bind].
  destruct (parse_try repo_root path pb (Py.get pb "py3_only" (JBool false)))
    as [r'|e] eqn:Etry.
  - intros H. injection H as <-. exists pb. auto.
  - destruct e; discriminate.
Qed.

Lemma EngineDep_kwargs_fields (engine : dict) (dep : EngineDep) :
  EngineDep_kwargs engine = Ok dep ->
  Py.lookup engine "url" = Some (url dep) /\
  Py.lookup engine "revision" = Some (revision dep) /\
  Py.lookup engine "branch" = Some (branch dep) /\
  forallb (fun kv => existsb (String.eqb (fst kv)) EngineDep_fields) engine = true.
Proof.
  unfold EngineDep_kwargs.
  destruct (forallb _ engine); [|discriminate].
  destruct (Py.lookup engine "url"), (Py.lookup engine "revision"),
    (Py.lookup engine "branch"); try discriminate.
  intros H. injection H as <-. auto.
Qed.

(** Everything a dependency returned by the [try] of [parse] is made of. *)
Lemma parse_try_returns_dep (repo_root path : string) (pb : dict) (py3 : json)
  (dep : EngineDep) (rp py3' : json) :
  parse_try repo_root path pb py3 = Ok (Some dep, rp, py3') ->
  exists deps engine declared,
    version_ok pb /\ dependent pb /\
    Py.lookup pb "deps" = Some (JObj deps) /\
    Py.lookup deps "recipe_engine" = Some (JObj engine) /\
    Py.lookup engine "url" = Some (url dep) /\
    revision dep = Py.get engine "revision" (JStr EmptyString) /\
    Py.get pb "recipes_path" (JStr EmptyString) = JStr declared /\
    rp = JStr (posixpath.join repo_root [declared]) /\
    py3' = py3 /\
    forallb (fun kv => existsb (String.eqb (fst kv)) EngineDep_fields) engine = true.
Proof.
  intros H.
  destruct (Py.lookup pb "api_version") as [v|] eqn:Ev.
  2:{ unfold parse_try, Py.getitem at 1 in H. rewrite Ev in H. discriminate. }
  destruct (Py.ne_int v 2) eqn:Ene.
  { unfold parse_try, Py.getitem at 1 in H. rewrite Ev in H.
    cbn [Res.bind] in H. rewrite Ene in H.
    destruct (Py.percent_d v); discriminate. }
  assert (Hv : version_ok pb) by (exists v; auto).
  destruct (identifier pb) as [id|] eqn:Eid.
  2:{ unfold parse_try, Py.getitem at 1 in H. rewrite Ev in H.
      cbn [Res.bind] in H. rewrite Ene in H.
      unfold identifier in Eid.
      destruct (Py.truthy (Py.get pb "repo_name" JNull)); [discriminate|].
      cbn [negb] in H. unfold Py.getitem at 1 in H. rewrite Eid in H.
      discriminate. }
  rewrite (parse_try_identified repo_root path py3 Hv Eid) in H.
  destruct (Py.eq_str id "recipe_engine") eqn:Esent; [discriminate|].
  assert (Hdep : dependent pb) by (exists id; auto).
  destruct (Py.getitem pb "deps") as [deps0|] eqn:Edeps; [|discriminate].
  cbn [Res.bind] in H.
  destruct (Py.subscript deps0 "recipe_engine") as [engine0|] eqn:Eeng;
    [|discriminate].
  cbn [Res.bind] in H.
  destruct (Py.contains "url" engine0) as [has|] eqn:Eurl; [|discriminate].
  cbn [Res.bind] in H.
  destruct has; cbn [negb] in H; [|discriminate].
  destruct (Py.as_dict engine0) as [engine|] eqn:Edict; [|discriminate].
  cbn [Res.bind] in H.
  destruct engine0 as [| | | | | |engine']; try discriminate.
  injection Edict as <-.
  destruct deps0 as [| | | | | |deps]; try discriminate.
  cbn [Py.subscript] in Eeng.
  apply getitem_Ok in Edeps, Eeng.
  set (e2 := Py.setdefault (Py.setdefault engine' "revision" (JStr EmptyString))
               "branch" (JStr "refs/heads/main")) in *.
  destruct (Py.getitem e2 "branch") as [b0|] eqn:Eb; [|discriminate].
  cbn [Res.bind] in H.
  destruct (Py.as_str b0) as [b|] eqn:Es; [|discriminate].
  cbn [Res.bind] in H.
  destruct (Py.get pb "recipes_path" (JStr EmptyString)) as [| | | |declared| |]
    eqn:Erp; try discriminate.
  cbn [Py.as_str Res.bind] in H.
  match type of H with
  | context [EngineDep_kwargs ?e] =>
      destruct (EngineDep_kwargs e) as [dep'|] eqn:Ek; [|discriminate]
  end.
  cbn [Res.bind] in H. injection H as -> <- <-.
  apply EngineDep_kwargs_fields in Ek. destruct Ek as (Hu & Hr & _ & Hkeys).
  exists deps, engine', declared.
  assert (Hsame : forall x : string,
            Py.lookup (if negb (Str.startswith "refs/" b)
                       then Py.setitem e2 "branch" (JStr ("refs/heads/" ++ b))
                       else e2) x =
            if String.eqb "branch" x
            then (if negb (Str.startswith "refs/" b)
                  then Some (JStr ("refs/heads/" ++ b))
                  else Py.lookup e2 x)
            else Py.lookup e2 x).
  { intros x. destruct (negb (Str.startswith "refs/" b)).
    - destruct (String.eqb_spec "branch" x) as [<-|Hx].
      + apply lookup_setitem_same.
      + apply lookup_setitem_other. now apply String.eqb_neq.
    - now destruct (String.eqb "branch" x). }
  rewrite Hsame in Hu, Hr. cbn [String.eqb Ascii.eqb Bool.eqb] in Hu, Hr.
  subst e2. rewrite !lookup_setdefault in Hu, Hr.
  cbn [String.eqb Ascii.eqb Bool.eqb] in Hu, Hr.
  repeat split; auto.
  - destruct (Py.lookup engine' "url"); [exact Hu | discriminate].
  - unfold Py.get. destruct (Py.lookup engine' "revision"); congruence.
  - change posixpath.sep with "/"%char. rewrite replace_same. reflexivity.
  - pose (P := fun k => existsb (String.eqb k) EngineDep_fields).
    pose proof (fun d k v H => keys_setitem P d k v H) as Kset.
    pose proof (fun d k v H => keys_setdefault P d k v H) as Kdef.
    subst P. cbv beta in Kset, Kdef.
    destruct (negb (Str.startswith "refs/" b)).
    + rewrite Kset, !Kdef in Hkeys by reflexivity. exact Hkeys.
    + rewrite !Kdef in Hkeys by reflexivity. exact Hkeys.
Qed.

(** X1: the branch of every dependency that [parse] returns is a string
    that starts with [refs/]: the branch is fully qualified before any
    use. *)
Theorem parse_branch_qualified (repo_root path : string) (st : State W)
  (dep : EngineDep) (rp py3 : json) :
  fst (parse repo_root path st) = Ok (Some dep, rp, py3) ->
  exists b, branch dep = JStr b /\ Str.startswith "refs/" b = true.
Proof.
  intros H. apply parse_returns in H. destruct H as (pb & _ & Htry).
  destruct (parse_try_dependency _ _ _ _ Htry)
    as (_ & _ & b & _ & _ & _ & Hb & _).
  exists (normalize_branch b). split; [exact Hb|].
  apply normalize_branch_qualified.
Qed.

(** X2: what [parse] returns with a dependency: the URL is the one the
    [recipe_engine] entry declares, the revision is the declared one or the
    empty string when the entry declares none, the recipes path is the
    declared [recipes_path] (empty by default) joined under the repository
    root, the flag is the manifest's [py3_only] ([False] by default), and
    the entry has no key other than [url], [revision] and [branch]. *)
Theorem parse_dependency_fields (repo_root path : string) (st : State W)
  (dep : EngineDep) (rp py3 : json) :
  fst (parse repo_root path st) = Ok (Some dep, rp, py3) ->
  exists pb deps engine declared,
    open_json path (world st) = Decoded (JObj pb) /\
    Py.lookup pb "deps" = Some (JObj deps) /\
    Py.lookup deps "recipe_engine" = Some (JObj engine) /\
    Py.lookup engine "url" = Some (url dep) /\
    revision dep = Py.get engine "revision" (JStr EmptyString) /\
    Py.get pb "recipes_path" (JStr EmptyString) = JStr declared /\
    rp = JStr (posixpath.join repo_root [declared]) /\
    py3 = Py.get pb "py3_only" (JBool false) /\
    forall key value,
      In (key, value) engine ->
      key = "url" \/ key = "revision" \/ key = "branch".
Proof.
  intros H. apply parse_returns in H. destruct H as (pb & Hopen & Htry).
  destruct (parse_try_returns_dep _ _ _ _ Htry)
    as (deps & engine & declared & _ & _ & Hd & He & Hu & Hr & Hrp & -> & -> & Hk).
  exists pb, deps, engine, declared. repeat split; auto.
  intros key value Hin.
  rewrite forallb_forall in Hk. specialize (Hk _ Hin). cbn in Hk.
  destruct (String.eqb_spec key "url") as [->|_]; [auto|].
  destruct (String.eqb_spec key "revision") as [->|_]; [auto|].
  destruct (String.eqb_spec key "branch") as [->|_]; [auto|].
  discriminate.
Qed.

Lemma join_absolute (a b : string) :
  Str.startswith "/" b = true -> posixpath.join a [b] = b.
Proof.
  intros H. unfold posixpath.join. cbn [fold_left]. unfold posixpath.join2.
  now rewrite H.
Qed.

(** X3: a declared [recipes_path] that starts with a slash is returned as
    it is: the repository root plays no part in the recipes path. *)
Theorem parse_recipes_path_absolute (repo_root path : string) (st : State W)
  (dep : EngineDep) (rp py3 : json) (pb : dict) (declared : string) :
  fst (parse repo_root path st) = Ok (Some dep, rp, py3) ->
  open_json path (world st) = Decoded (JObj pb) ->
  Py.lookup pb "recipes_path" = Some (JStr declared) ->
  Str.startswith "/" declared = true ->
  rp = JStr declared.
Proof.
  intros H Hopen Hdecl Habs.
  apply parse_returns in H. destruct H as (pb' & Hopen' & Htry).
  rewrite Hopen in Hopen'. injection Hopen' as <-.
  destruct (parse_try_returns_dep _ _ _ _ Htry)
    as (_ & _ & declared' & _ & _ & _ & _ & _ & _ & Hrp & -> & _).
  unfold Py.get in Hrp. rewrite Hdecl in Hrp. injection Hrp as <-.
  now rewrite join_absolute.
Qed.

(** X4: an entry for the engine that holds a key other than [url],
    [revision] and [branch] makes [parse] fail with a [TypeError], not with
    [MalformedRecipesCfg], on a manifest that is well formed otherwise. *)
Theorem parse_extra_key (repo_root path : string) (st : State W)
  (pb deps engine : dict) (b declared key : string) (value : json) :
  open_json path (world st) = Decoded (JObj pb) ->
  version_ok pb -> dependent pb ->
  Py.lookup pb "deps" = Some (JObj deps) ->
  Py.lookup deps "recipe_engine" = Some (JObj engine) ->
  Py.has_key engine "url" = true ->
  Py.get engine "branch" (JStr "refs/heads/main") = JStr b ->
  Py.get pb "recipes_path" (JStr EmptyString) = JStr declared ->
  In (key, value) engine ->
  key <> "url" -> key <> "revision" -> key <> "branch" ->
  fst (parse repo_root path st) = Raise TypeError.
Proof.
  intros Hopen Hv [id [Hid Hs]] Hd He Hurl Hb Hrp Hin Hk1 Hk2 Hk3.
  rewrite (parse_decoded repo_root _ _ Hopen). cbn [fst].
  unfold parse_loaded. cbn [Py.as_dict Res.bind].
  rewrite (parse_try_identified repo_root path _ Hv Hid), Hs.
  unfold Py.getitem at 1. rewrite Hd. cbn [Res.bind Py.subscript].
  unfold Py.getitem at 1. rewrite He. cbn [Res.bind Py.contains].
  rewrite Hurl. cbn [negb Py.as_dict Res.bind].
  set (e2 := Py.setdefault (Py.setdefault engine "revision" (JStr EmptyString))
               "branch" (JStr "refs/heads/main")).
  assert (Hb2 : Py.lookup e2 "branch" = Some (JStr b)).
  { subst e2. rewrite !lookup_setdefault. cbn.
    unfold Py.get in Hb. destruct (Py.lookup engine "branch"); congruence. }
  unfold Py.getitem. rewrite Hb2. cbn [Res.bind Py.as_str]. rewrite Hrp.
  cbn [Py.as_str Res.bind].
  match goal with
  | |- context [EngineDep_kwargs ?e] =>
      assert (Hkw : EngineDep_kwargs e = Raise TypeError)
  end.
  { unfold EngineDep_kwargs.
    match goal with
    | |- (if ?c then _ else _) = _ => assert (Hc : c = false); [|now rewrite Hc]
    end.
    pose (P := fun k => existsb (String.eqb k) EngineDep_fields).
    pose proof (fun d k v H => keys_setitem P d k v H) as Kset.
    pose proof (fun d k v H => keys_setdefault P d k v H) as Kdef.
    subst P. cbv beta in Kset, Kdef.
    assert (Heng : forallb (fun kv => existsb (String.eqb (fst kv)) EngineDep_fields)
                     engine = false).
    { apply not_true_is_false. intros Hall.
      rewrite forallb_forall in Hall. specialize (Hall _ Hin). cbn in Hall.
      destruct (String.eqb_spec key "url"); [contradiction|].
      destruct (String.eqb_spec key "revision"); [contradiction|].
      destruct (String.eqb_spec key "branch"); [contradiction|].
      discriminate. }
    subst e2. destruct (negb (Str.startswith "refs/" b)).
    - rewrite Kset, !Kdef by reflexivity. exact Heng.
    - rewrite !Kdef by reflexivity. exact Heng. }
  rewrite Hkw. reflexivity.
Qed.

(** The exceptions that leave the [try] of [parse]. *)
Definition try_exn (e : exn) : bool :=
  match e with
  | MalformedRecipesCfg _ _ | KeyError _ | TypeError | AttributeError
  | ValueError | OverflowError => true
  | _ => false
  end.

Lemma getitem_exn (d : dict) (k : string) (e : exn) :
  Py.getitem d k = Raise e -> try_exn e = true.
Proof. intros H. apply getitem_Raise in H as [_ ->]. reflexivity. Qed.

Lemma subscript_exn (v : json) (k : string) (e : exn) :
  Py.subscript v k = Raise e -> try_exn e = true.
Proof.
  destruct v; cbn; intros H; try (injection H as <-; reflexivity).
  now apply getitem_exn in H.
Qed.

Lemma contains_exn (s : string) (v : json) (e : exn) :
  Py.contains s v = Raise e -> try_exn e = true.
Proof. destruct v; cbn; intros H; try discriminate; injection H as <-; reflexivity. Qed.

Lemma as_dict_exn (v : json) (e : exn) :
  Py.as_dict v = Raise e -> try_exn e = true.
Proof. destruct v; cbn; intros H; try discriminate; injection H as <-; reflexivity. Qed.

Lemma as_str_exn (v : json) (e : exn) :
  Py.as_str v = Raise e -> try_exn e = true.
Proof. destruct v; cbn; intros H; try discriminate; injection H as <-; reflexivity. Qed.

Lemma percent_d_exn (v : json) (e : exn) :
  Py.percent_d v = Raise e -> try_exn e = true.
Proof. intros H. destruct (percent_d_raises _ H) as [->|[->| ->]]; reflexivity. Qed.

Lemma kwargs_exn (d : dict) (e : exn) :
  EngineDep_kwargs d = Raise e -> try_exn e = true.
Proof. intros H. now rewrite (EngineDep_kwargs_raises _ H). Qed.

Lemma parse_try_exn (repo_root path : string) (pb : dict) (py3 : json) (e : exn) :
  parse_try repo_root path pb py3 = Raise e -> try_exn e = true.
Proof.
  unfold parse_try. intros H.
  repeat match type of H with
    | Res.bind ?c _ = _ =>
        let E := fresh "E" in
        destruct c eqn:E; cbn [Res.bind] in H;
        [| injection H as <-;
           first [ exact (getitem_exn _ _ E) | exact (subscript_exn _ _ E)
                 | exact (contains_exn _ _ E) | exact (as_dict_exn _ E)
                 | exact (as_str_exn _ E) | exact (percent_d_exn _ E)
                 | exact (kwargs_exn _ E)
                 | destruct (negb _);
                   [exact (getitem_exn _ _ E) | discriminate E] ] ]
    | (if ?b then _ else _) = _ => destruct b
    | Ok _ = Raise _ => discriminate H
    | Raise _ = Raise _ => injection H as <-; reflexivity
    end.
Qed.


(** X5: once the manifest file is read and decoded, the exceptions
    [parse] can end with are [MalformedRecipesCfg] for the manifest path
    and the [TypeError], [AttributeError], [ValueError] or [OverflowError]
    of a value of the wrong type. A [KeyError] never leaves it. *)
Theorem parse_exceptions (repo_root path : string) (st : State W)
  (pb : json) (e : exn) :
  open_json path (world st) = Decoded pb ->
  fst (parse repo_root path st) = Raise e ->
  (exists msg, e = MalformedRecipesCfg msg path) \/
  e = TypeError \/ e = AttributeError \/ e = ValueError \/ e = OverflowError.
Proof.
  intros Hopen. rewrite (parse_decoded repo_root _ _ Hopen). cbn [fst].
  unfold parse_loaded.
  destruct pb as [| | | | | |d]; cbn [Py.as_dict Res.bind];
    try (intros H; injection H as <-; auto).
  destruct (parse_try repo_root path d (Py.get d "py3_only" (JBool false)))
    as [r|e0] eqn:Etry; [discriminate|].
  pose proof (parse_try_exn _ _ _ _ Etry) as Hk.
  pose proof (parse_try_raises _ _ _ _ Etry) as Hr.
  destruct e0; try discriminate Hk; intros H; injection H as <-; auto.
  - destruct Hr as [-> _]. eauto.
  - eauto.
Qed.

End MoreParse.

(** * More on the checkout *)

(** Symbolic execution of a run kept in the hypothesis [E]. *)
Ltac exec_step E :=
  first
    [ rewrite git_call2 in E
    | rewrite git_call3 in E
    | rewrite git_call4 in E
    | erewrite git_call_not_strings in E by reflexivity
    | progress unfold git_outcome in E
    | progress cbn [world events logs printed root_level ignored_signals ran
                    fst snd argv negb] in E
    | match type of E with
      | context [?c =? ?d] => destruct (Z.eqb_spec c d)
      end
    | match type of E with
      | context [run_process ?c ?w] =>
          let code := fresh "code" in
          let Hrun := fresh "Hrun" in
          destruct (run_process c w) as [[code ?|?] ?] eqn:Hrun
      | context [os_remove ?l ?w] =>
          let Hrm := fresh "Hrm" in
          destruct (os_remove l w) as [[|? ?] ?] eqn:Hrm
      end ].

Ltac exec_all E :=
  unfold Mon.bind, Mon.except_CalledProcessError, Mon.ret, Mon.raise, Mon.lift,
    Mon.act, Mon.record, Mon.log in E;
  repeat exec_step E.

Section MoreCheckout.
Context {W : Type} {L : Library} {Sy : System W}.

(** X6: with no override, a dependency whose URL starts with [file://] and
    has a path is not checked out: the path of the URL is returned, no call
    is made and nothing changes. *)
Theorem file_url_short_circuit (engine_path : option string)
  (repo_root path : string) (st : State W) (dep : EngineDep) (rp py3 : json)
  (u : string) :
  no_path engine_path = true ->
  fst (parse repo_root path st) = Ok (Some dep, rp, py3) ->
  url dep = JStr u ->
  Str.startswith "file://" u = true ->
  Str.is_empty (urlparse_path u) = false ->
  checkout_engine engine_path repo_root path st = (Ok (urlparse_path u, py3), st).
Proof.
  intros Hno Hparse Hu Hfile Hpath.
  pose proof (parse_keeps_state repo_root path st) as Hst.
  unfold checkout_engine, Mon.bind at 1.
  destruct (parse repo_root path st) as [r st0]. cbn in Hparse, Hst.
  subst r st0.
  unfold Mon.bind, Mon.ret, Mon.lift. rewrite Hno, Hu. cbn [Py.as_str].
  rewrite Hfile. cbn [no_path]. rewrite Hpath. reflexivity.
Qed.

(** X7: in the engine's own repository, [checkout_engine] returns the
    recipes path joined under the repository root, with the manifest's
    flag, whatever override is given; it fails with a [TypeError] when the
    recipes path is not a string. No call is made and nothing changes. *)
Theorem self_hosting_checkout (engine_path : option string)
  (repo_root path : string) (st : State W) (rp py3 : json) :
  fst (parse repo_root path st) = Ok (None, rp, py3) ->
  checkout_engine engine_path repo_root path st =
  (match rp with
   | JStr s => Ok (posixpath.join repo_root [s], py3)
   | _ => Raise TypeError
   end, st).
Proof.
  intros Hparse.
  pose proof (parse_keeps_state repo_root path st) as Hst.
  unfold checkout_engine, Mon.bind at 1.
  destruct (parse repo_root path st) as [r st0]. cbn in Hparse, Hst.
  subst r st0.
  unfold Mon.bind, Mon.ret, Mon.lift, join_value.
  destruct rp; reflexivity.
Qed.

(** X8: an override that is the empty string is no override:
    [checkout_engine] does with it what it does with [None]. *)
Theorem empty_override_is_none (repo_root path : string) (st : State W) :
  checkout_engine (Some EmptyString) repo_root path st =
  checkout_engine None repo_root path st.
Proof.
  unfold checkout_engine, Mon.bind, Mon.ret, Mon.lift.
  destruct (parse repo_root path st) as [[[[[dep|] rp] py3]|e] st0];
    try reflexivity.
  cbn [no_path Str.is_empty].
  destruct (Py.as_str (url dep)) as [u|e]; [|reflexivity].
  destruct (Str.startswith "file://" u); reflexivity.
Qed.

(** X9: when a managed checkout ends with [CalledProcessError], the call
    that failed is the last one made and is [init], [fetch], [reset] or
    [clean]: a failing [rev-parse] or [diff] never ends the run. *)
Theorem checkout_failure_origin (engine_path : option string)
  (repo_root path : string) (st st' : State W) (dep : EngineDep)
  (rp py3 : json) (u : string) (c : Z) (cmd : list string) :
  no_path engine_path = true ->
  fst (parse repo_root path st) = Ok (Some dep, rp, py3) ->
  url dep = JStr u ->
  Str.startswith "file://" u = false ->
  checkout_engine engine_path repo_root path st =
    (Raise (CalledProcessError c cmd), st') ->
  c <> 0 /\
  exists sub rest call pre,
    cmd = GIT :: sub :: rest /\
    In sub ["init"; "fetch"; "reset"; "clean"] /\
    argv call = cmd /\
    events st' = (pre ++ [Ran call c])%list.
Proof.
  intros Hno Hparse Hu Hfile E.
  rewrite (checkout_engine_managed _ _ _ _ Hno Hparse Hu Hfile) in E.
  destruct (parse_dependency_shape _ _ _ Hparse) as (rps & b & -> & Hb).
  unfold managed_checkout, reset_and_clean in E. rewrite Hu, Hb in E.
  cbn [join_under] in E.
  set (q := posixpath.join rps [".recipe_deps"; "recipe_engine"]) in *.
  destruct (revision dep) as [| | | |rev| |] eqn:Hrev;
    cbn [percent_s] in E; exec_all E; try discriminate;
    injection E as <- <- <-;
    (split; [assumption|]);
    do 4 eexists;
    (split; [reflexivity|]);
    (split; [cbn [In]; tauto|]);
    cbn [events ran];
    (split; [|reflexivity]); reflexivity.
Qed.

(** X10: a fetch that fails ends the run: after [init], the [rev-parse]
    that did not resolve and the failed [fetch], nothing else is called,
    and the error carries the status and the command of the fetch. *)
Theorem failed_fetch_is_fatal (engine_path : option string)
  (repo_root path : string) (st : State W) (dep : EngineDep)
  (py3 : json) (rps u b : string) (c n : Z) (o1 o2 o3 : string) (w1 w2 w3 : W) :
  no_path engine_path = true ->
  fst (parse repo_root path st) = Ok (Some dep, JStr rps, py3) ->
  url dep = JStr u ->
  branch dep = JStr b ->
  Str.startswith "file://" u = false ->
  let p := posixpath.join rps [".recipe_deps"; "recipe_engine"] in
  let rev := percent_s (revision dep) in
  run_process (git_init p) (world st) = (Exited 0 o1, w1) ->
  run_process (git_verify p rev) w1 = (Exited c o2, w2) ->
  c <> 0 ->
  run_process (git_fetch p u b) w2 = (Exited n o3, w3) ->
  n <> 0 ->
  let run := checkout_engine engine_path repo_root path st in
  fst run = Raise (CalledProcessError n (argv (git_fetch p u b))) /\
  events (snd run) =
    (events st ++ [Ran (git_init p) 0; Ran (git_verify p rev) c;
                   Ran (git_fetch p u b) n])%list /\
  world (snd run) = w3.
Proof.
  intros Hno Hparse Hu Hb Hfile p rev Hinit Hverify Hc Hfetch Hn run.
  subst run.
  rewrite (checkout_engine_managed _ _ _ _ Hno Hparse Hu Hfile).
  destruct (managed_checkout dep (JStr rps) st) as [r st1] eqn:E.
  unfold managed_checkout in E. rewrite Hu, Hb in E.
  cbn [join_under] in E. fold p in E. fold rev in E.
  unfold Mon.bind, Mon.except_CalledProcessError, Mon.ret, Mon.raise, Mon.lift in E.
  rewrite git_call2 in E. unfold git_outcome in E.
  fold (git_init p) in E. rewrite Hinit in E. cbn [Z.eqb] in E.
  rewrite git_call3 in E. unfold git_outcome in E.
  cbn [world ran] in E. fold (git_verify p rev) in E. rewrite Hverify in E.
  destruct (Z.eqb_spec c 0) as [|_]; [contradiction|].
  rewrite git_call4 in E. unfold git_outcome in E.
  cbn [world ran] in E. fold (git_fetch p u b) in E. rewrite Hfetch in E.
  destruct (Z.eqb_spec n 0) as [|_]; [contradiction|].
  injection E as <- <-. cbn [fst snd events world ran].
  rewrite <- !app_assoc. repeat split; reflexivity.
Qed.

End MoreCheckout.

(** * More on the launcher *)

(** A computation that prints nothing. *)
Definition quiet {W A} (c : M W A) : Prop :=
  forall st, printed (snd (c st)) = printed st.

Create HintDb quiet.

Section Quiet.
Context {W : Type} {L : Library} {Sy : System W}.

Lemma quiet_ret {A} (a : A) : quiet (W:=W) (Mon.ret a).
Proof. intros st. reflexivity. Qed.

Lemma quiet_raise {A} (e : exn) : quiet (W:=W) (A:=A) (Mon.raise e).
Proof. intros st. reflexivity. Qed.

Lemma quiet_lift {A} (r : result A) : quiet (W:=W) (Mon.lift r).
Proof. intros st. reflexivity. Qed.

Lemma quiet_ask {A} (f : W -> A) : quiet (Mon.ask f).
Proof. intros st. reflexivity. Qed.

Lemma quiet_act {A} (f : W -> A * W) : quiet (Mon.act f).
Proof. intros st. unfold Mon.act. destruct (f (world st)). reflexivity. Qed.

Lemma quiet_record (e : Event) : quiet (W:=W) (Mon.record e).
Proof. intros st. reflexivity. Qed.

Lemma quiet_log l f a : quiet (W:=W) (Mon.log l f a).
Proof. intros st. reflexivity. Qed.

Lemma quiet_setLevel l : quiet (W:=W) (Mon.setLevel l).
Proof. intros st. reflexivity. Qed.

Lemma quiet_ignore_signal s : quiet (W:=W) (Mon.ignore_signal s).
Proof. intros st. reflexivity. Qed.

Lemma quiet_bind {A B} (c : M W A) (k : A -> M W B) :
  quiet c -> (forall a, quiet (k a)) -> quiet (Mon.bind c k).
Proof.
  intros Hc Hk st. unfold Mon.bind.
  specialize (Hc st). destruct (c st) as [[a|e] st1]; cbn [snd] in *.
  - now rewrite Hk.
  - exact Hc.
Qed.

Lemma quiet_except {A} (c h : M W A) :
  quiet c -> quiet h -> quiet (Mon.except_CalledProcessError c h).
Proof.
  intros Hc Hh st. unfold Mon.except_CalledProcessError.
  specialize (Hc st). destruct (c st) as [[a|e] st1]; cbn [snd] in *;
    [exact Hc|].
  destruct e; try exact Hc. now rewrite Hh.
Qed.

#[local] Hint Resolve quiet_ret quiet_raise quiet_lift quiet_ask quiet_act quiet_record
  quiet_log quiet_setLevel quiet_ignore_signal : quiet.

Ltac quiet :=
  repeat first
    [ solve [auto with quiet]
    | apply quiet_bind; [|intros]
    | apply quiet_except
    | match goal with
      | |- quiet (match ?x with _ => _ end) => destruct x
      | |- quiet (if ?b then _ else _) => destruct b
      end ].

Lemma quiet_parse r p : quiet (parse r p).
Proof. unfold parse. quiet. Qed.

Lemma quiet_run_child c : quiet (run_child c).
Proof. unfold run_child. quiet. Qed.
#[local] Hint Resolve quiet_parse quiet_run_child : quiet.

Lemma quiet_git_check_call a d o e : quiet (_git_check_call a d o e).
Proof. unfold _git_check_call, subprocess_check_call. quiet. Qed.

Lemma quiet_git_output a d : quiet (_git_output a d).
Proof. unfold _git_output, subprocess_check_output. quiet. Qed.

Lemma quiet_subprocess_call a : quiet (_subprocess_call a).
Proof. unfold _subprocess_call, subprocess_call. quiet. Qed.
#[local] Hint Resolve quiet_git_check_call quiet_git_output quiet_subprocess_call : quiet.

Lemma quiet_reset_and_clean p r : quiet (reset_and_clean p r).
Proof. unfold reset_and_clean. quiet. Qed.
#[local] Hint Resolve quiet_reset_and_clean : quiet.

Lemma quiet_managed_checkout d r : quiet (managed_checkout d r).
Proof. unfold managed_checkout. quiet. Qed.
#[local] Hint Resolve quiet_managed_checkout : quiet.

Lemma quiet_checkout_engine e r p : quiet (checkout_engine e r p).
Proof. unfold checkout_engine. quiet. Qed.

Lemma quiet_parse_args a : quiet (parse_args a).
Proof. unfold parse_args. quiet. Qed.

Lemma quiet_locate p a : quiet (locate p a).
Proof. unfold locate. quiet. Qed.

Lemma quiet_require_binaries l : quiet (require_binaries l).
Proof.
  induction l as [|b l IH]; cbn [require_binaries]; [quiet|].
  unfold _is_on_path. quiet.
Qed.
#[local] Hint Resolve quiet_checkout_engine quiet_parse_args quiet_locate
  quiet_require_binaries : quiet.

Lemma quiet_main_resolve : quiet main_resolve.
Proof. unfold main_resolve. quiet. Qed.

Lemma quiet_main_launch e p a : quiet (main_launch e p a).
Proof. unfold main_launch, _is_on_path. quiet. Qed.
#[local] Hint Resolve quiet_main_resolve quiet_main_launch : quiet.

Lemma quiet_main_try : quiet main_try.
Proof. unfold main_try. quiet. Qed.

(** X12: when [main_launch] hands over, it is to the chosen runtime, which
    is on the search path, with [-u], the engine's [main.py] and the
    arguments, and nothing was changed; the runtime is [vpython3] when the
    manifest's flag is true or [RECIPES_USE_PY3] is [true], and [vpython]
    otherwise. It never returns a status. *)
Theorem main_launch_handoff (engine_path : string) (py3_only : json)
  (args : list string) (st st' : State W) (f : Finish) :
  main_launch engine_path py3_only args st = (Ok f, st') ->
  let file := chosen_vpython py3_only (world st) in
  f = Replaced file
        (file :: "-u" :: posixpath.join engine_path ["recipe_engine"; "main.py"]
           :: args) /\
  st' = st /\
  shutil_which file (world st) = true /\
  (Py.truthy py3_only = true \/
   os_getenv "RECIPES_USE_PY3" (world st) = Some "true" -> file = "vpython3") /\
  (Py.truthy py3_only = false ->
   os_getenv "RECIPES_USE_PY3" (world st) <> Some "true" -> file = "vpython").
Proof.
  intros H file.
  unfold main_launch, Mon.bind, _is_on_path in H.
  cbv beta zeta in H. unfold Mon.ask, Mon.raise, Mon.ret in H. cbv beta in H.
  fold (chosen_vpython py3_only (world st)) in H. fold file in H.
  destruct (shutil_which file (world st)) eqn:Hwhich; cbn [negb] in H;
    [|discriminate].
  change IS_WIN with false in H. cbv beta iota in H.
  destruct (os_execvp file _ (world st)); [discriminate|].
  injection H as <- <-.
  split; [reflexivity|]. split; [reflexivity|]. split; [reflexivity|].
  subst file. unfold chosen_vpython. split.
  - intros [Ht|He]; [now rewrite Ht|].
    rewrite He. cbn. now rewrite orb_true_r.
  - intros Ht He. rewrite Ht. cbn [orb].
    destruct (os_getenv "RECIPES_USE_PY3" (world st)) as [v|]; [|reflexivity].
    destruct (String.eqb_spec v "true") as [->|_]; [congruence|reflexivity].
Qed.

Lemma main_launch_replaces (engine_path : string) (py3_only : json)
  (args : list string) (st st' : State W) (f : Finish) :
  IS_WIN = false ->
  main_launch engine_path py3_only args st = (Ok f, st') ->
  exists file argv, f = Replaced file argv.
Proof.
  intros Hposix.
  unfold main_launch, Mon.bind, _is_on_path.
  cbv beta zeta. unfold Mon.ask, Mon.raise, Mon.ret. cbv beta.
  destruct (shutil_which _ (world st)); cbn [negb]; [|discriminate].
  rewrite Hposix.
  destruct (os_execvp _ _ (world st)); [discriminate|].
  intros H. injection H as <- _. eauto.
Qed.

Lemma main_try_hands_over (st st' : State W) (f : Finish) :
  IS_WIN = false ->
  main_try st = (Ok f, st') -> exists file argv, f = Replaced file argv.
Proof.
  intros Hposix. unfold main_try. unfold Mon.bind at 1.
  destruct (main_resolve st) as [[[[[eo root] path] args]|e] st1]; [|discriminate].
  unfold Mon.bind at 1.
  destruct (checkout_engine eo root path st1) as [[[ep py3]|e] st2];
    [|discriminate].
  now apply main_launch_replaces.
Qed.


(** X11: on POSIX, [main] returns a status only to report a missing
    binary: the status is then 1 and one line was printed. In every other
    ending (the handoff to the runtime, or an exception that is not
    caught) nothing was printed. *)
Theorem main_returns_only_to_report (st : State W) :
  IS_WIN = false ->
  match fst (main st) with
  | Ok (Returned code) =>
      code = 1 /\ exists line, printed (snd (main st)) = (printed st ++ [line])%list
  | _ => printed (snd (main st)) = printed st
  end.
Proof.
  intros Hposix.
  pose proof (quiet_main_try st) as Hq.
  unfold main.
  destruct (main_try st) as [[f|e] st1] eqn:E; cbn [snd] in Hq.
  - destruct (main_try_hands_over _ Hposix E) as (file & argv & ->). exact Hq.
  - destruct e; try exact Hq.
    cbn. split; [reflexivity|]. rewrite Hq. eauto.
Qed.

(** X13: when [git] or [cipd] is on the search path, the check of the
    required binaries gives the same result in both iteration orders of
    the set. *)
Theorem required_binaries_order (st : State W) :
  shutil_which GIT (world st) = true \/ shutil_which CIPD (world st) = true ->
  require_binaries (REQUIRED_BINARIES true) st =
  require_binaries (REQUIRED_BINARIES false) st.
Proof.
  intros H. unfold REQUIRED_BINARIES. cbn [require_binaries].
  unfold Mon.bind, _is_on_path, Mon.ask, Mon.raise, Mon.ret.
  destruct (shutil_which GIT (world st)) eqn:Eg,
    (shutil_which CIPD (world st)) eqn:Ec;
    cbn [negb]; rewrite ?Eg, ?Ec; cbn [negb]; try reflexivity.
  destruct H as [H|H]; discriminate H.
Qed.

Lemma startswith_slash_app (a b : string) :
  Str.startswith "/" a = true -> Str.startswith "/" (a ++ b) = true.
Proof.
  destruct a as [|c a]; [discriminate|].
  unfold Str.startswith. cbn [String.prefix append].
  destruct (ascii_dec "/" c); [|discriminate].
  intros _. destruct (a ++ b); reflexivity.
Qed.

Lemma normpath_absolute (p : string) :
  Str.startswith "/" p = true -> Str.startswith "/" (posixpath.normpath p) = true.
Proof.
  intros H. unfold posixpath.normpath.
  destruct (Str.is_empty p) eqn:Ee; [destruct p; discriminate|].
  rewrite H. cbv zeta.
  destruct (Str.startswith "//" p && negb (Str.startswith "///" p));
    match goal with
    | |- context [if Str.is_empty ?x then _ else _] =>
        change (Str.is_empty x) with false
    end; cbv iota.
  - match goal with
    | |- Str.startswith "/" ("//" ++ ?x) = true =>
        apply (startswith_app "/" ("/" ++ x))
    end.
  - apply (startswith_app "/").
Qed.

Lemma abspath_absolute (dir p : string) :
  posixpath.isabs dir = true -> posixpath.isabs (posixpath.abspath dir p) = true.
Proof.
  intros Hd. unfold posixpath.abspath, posixpath.isabs in *.
  apply normpath_absolute.
  destruct (Str.startswith "/" p) eqn:Hp; [exact Hp|].
  unfold posixpath.join. cbn [fold_left]. unfold posixpath.join2. rewrite Hp.
  destruct (Str.is_empty dir || Str.startswith "/" (Str.rev dir));
    now apply startswith_slash_app.
Qed.

(** X14: the manifest path that [parse_args] returns for [--package] is
    never empty, and is absolute whenever the working directory is. *)
Theorem parse_args_package_absolute (args : list string) (st st' : State W)
  (override : option string) (package : string) :
  parse_args args st = (Ok (override, Some package), st') ->
  Str.is_empty package = false /\
  (posixpath.isabs (os_getcwd (world st)) = true ->
   posixpath.isabs package = true).
Proof.
  unfold parse_args.
  destruct (argparse_scan args) as [[ov [pk|]]|]; unfold Mon.bind, Mon.ask, Mon.ret, Mon.raise;
    try discriminate;
    destruct (find (Str.startswith PREFIX) (or_empty ov)); cbn [option_map];
    intros H; try discriminate; injection H as _ <- _.
  all: split; [apply abspath_not_empty | apply abspath_absolute].
Qed.

End Quiet.

(** * More on messages and paths *)

(** A character [repr] shows as it is between single quotes. *)
Definition plain (c : ascii) : bool :=
  Str.printable c && negb (Ascii.eqb c "'"%char)
  && negb (Ascii.eqb c (ascii_of_nat 92)).

Fixpoint all_plain (s : string) : bool :=
  match s with
  | EmptyString => true
  | String c rest => plain c && all_plain rest
  end.

Lemma repr_char_plain (c : ascii) :
  plain c = true -> Str.repr_char "'"%char c = String c EmptyString.
Proof.
  destruct c as [[] [] [] [] [] [] [] []]; vm_compute; intros H;
    try discriminate H; reflexivity.
Qed.

Lemma plain_not_quote (c : ascii) : plain c = true -> Ascii.eqb "'"%char c = false.
Proof.
  destruct c as [[] [] [] [] [] [] [] []]; vm_compute; intros H;
    try discriminate H; reflexivity.
Qed.

Lemma repr_body_plain (s : string) :
  all_plain s = true -> Str.repr_body "'"%char s = s.
Proof.
  induction s as [|c s IH]; cbn [all_plain Str.repr_body]; [reflexivity|].
  intros H. apply andb_prop in H as [Hc Hs].
  rewrite (repr_char_plain _ Hc), (IH Hs). reflexivity.
Qed.

Lemma has_quote_plain (s : string) :
  all_plain s = true -> Str.has_char "'"%char s = false.
Proof.
  induction s as [|c s IH]; cbn [all_plain Str.has_char]; [reflexivity|].
  intros H. apply andb_prop in H as [Hc Hs].
  now rewrite (plain_not_quote _ Hc), (IH Hs).
Qed.

Lemma repr_plain (s : string) :
  all_plain s = true -> Str.repr s = "'" ++ s ++ "'".
Proof.
  intros H. unfold Str.repr. rewrite (has_quote_plain _ H). cbn [andb].
  rewrite (repr_body_plain _ H). reflexivity.
Qed.

(** X15: for a manifest path made of printable characters other than the
    single quote and the backslash, the message of [MalformedRecipesCfg]
    is the fixed prefix, the reason, and the path as it is between single
    quotes. *)
Theorem malformed_message_plain_path (msg path : string) :
  all_plain path = true ->
  str_of_exn (MalformedRecipesCfg msg path) =
  "malformed recipes.cfg: " ++ msg ++ ": '" ++ path ++ "'".
Proof.
  intros H. cbn [str_of_exn]. unfold full_message. now rewrite (repr_plain _ H).
Qed.

Lemma str_app_assoc (a b c : string) : (a ++ b) ++ c = a ++ b ++ c.
Proof. induction a as [|x a IH]; cbn; [|rewrite IH]; reflexivity. Qed.

(** Reversal of strings. *)
Lemma rev_acc_app (s acc : string) : Str.rev_acc s acc = Str.rev s ++ acc.
Proof.
  unfold Str.rev. revert acc.
  induction s as [|c s IH]; intros acc; cbn [Str.rev_acc]; [reflexivity|].
  rewrite (IH (String c acc)), (IH (String c EmptyString)).
  rewrite str_app_assoc. reflexivity.
Qed.

Lemma rev_cons (c : ascii) (s : string) :
  Str.rev (String c s) = Str.rev s ++ String c EmptyString.
Proof. unfold Str.rev at 1. cbn [Str.rev_acc]. apply rev_acc_app. Qed.

Lemma app_empty_r (s : string) : s ++ EmptyString = s.
Proof. induction s as [|c s IH]; cbn; [|rewrite IH]; reflexivity. Qed.

Lemma rev_app (a b : string) : Str.rev (a ++ b) = Str.rev b ++ Str.rev a.
Proof.
  induction a as [|c a IH]; cbn [append].
  - now rewrite app_empty_r.
  - rewrite !rev_cons, IH, str_app_assoc. reflexivity.
Qed.

Lemma rev_rev (s : string) : Str.rev (Str.rev s) = s.
Proof.
  induction s as [|c s IH]; [reflexivity|].
  rewrite rev_cons, rev_app, IH. reflexivity.
Qed.

Lemma has_char_app (c : ascii) (a b : string) :
  Str.has_char c (a ++ b) = Str.has_char c a || Str.has_char c b.
Proof.
  induction a as [|d a IH]; cbn [append Str.has_char]; [reflexivity|].
  rewrite IH. now rewrite orb_assoc.
Qed.

Lemma has_char_rev (c : ascii) (s : string) :
  Str.has_char c (Str.rev s) = Str.has_char c s.
Proof.
  induction s as [|d s IH]; [reflexivity|].
  rewrite rev_cons, has_char_app, IH. cbn [Str.has_char].
  rewrite orb_false_r. apply orb_comm.
Qed.

Lemma from_char_app (c : ascii) (a b : string) :
  Str.has_char c a = false ->
  Str.from_char c (a ++ String c b) = String c b.
Proof.
  induction a as [|d a IH]; cbn [append Str.from_char Str.has_char]; intros H.
  - now rewrite Ascii.eqb_refl.
  - apply orb_false_elim in H as [Hd Ha]. rewrite Hd. auto.
Qed.

(** The parent directory of a name put under a directory that does not
    end with a slash is that directory. *)
Lemma dirname_under (x name : string) (c : ascii) (x' : string) :
  Str.rev x = String c x' -> Ascii.eqb "/"%char c = false ->
  Str.has_char "/"%char name = false ->
  posixpath.dirname (x ++ "/" ++ name) = x.
Proof.
  intros Hx Hc Hname.
  assert (Hhead : posixpath.head_of (x ++ "/" ++ name) = x ++ "/").
  { unfold posixpath.head_of. rewrite rev_app.
    change ("/" ++ name) with (String "/" name). rewrite rev_cons.
    rewrite str_app_assoc. cbn [append].
    rewrite from_char_app by (now rewrite has_char_rev).
    rewrite rev_cons, rev_rev. reflexivity. }
  unfold posixpath.dirname. rewrite Hhead.
  assert (Hstrip : Str.rstrip posixpath.sep (x ++ "/") = x).
  { unfold Str.rstrip. rewrite rev_app. cbn [append Str.rev Str.rev_acc].
    change (Str.rev_acc "/" EmptyString) with "/". cbn [append Str.lstrip].
    change (Ascii.eqb posixpath.sep "/") with true. cbv iota.
    rewrite Hx. cbn [Str.lstrip]. change posixpath.sep with "/"%char.
    rewrite Hc. rewrite <- Hx. apply rev_rev. }
  assert (Hne : Str.is_empty (x ++ "/") = false)
    by (destruct x; reflexivity).
  assert (Hnot : Str.is_empty (Str.lstrip posixpath.sep (x ++ "/")) = false).
  { assert (Hin : forall y, Str.has_char c y = true ->
                    Str.is_empty (Str.lstrip "/"%char y) = false).
    { induction y as [|d y IH]; cbn [Str.has_char Str.lstrip]; [discriminate|].
      intros H. destruct (Ascii.eqb_spec "/"%char d) as [<-|Hd].
      - rewrite Ascii.eqb_sym, Hc in H. cbn [orb] in H. auto.
      - reflexivity. }
    apply Hin. rewrite has_char_app. apply orb_true_intro. left.
    rewrite <- (rev_rev x), has_char_rev, Hx. cbn [Str.has_char].
    now rewrite Ascii.eqb_refl. }
  rewrite Hne, Hnot. cbn [negb andb]. exact Hstrip.
Qed.

Lemma rev_last (a : string) (c : ascii) :
  Str.rev (a ++ String c EmptyString) = String c (Str.rev a).
Proof. rewrite rev_app. reflexivity. Qed.

(** Joining a relative name under a directory that does not end with a
    slash puts one slash between them. *)
Lemma join2_under (x name : string) (c : ascii) (x' : string) :
  Str.rev x = String c x' -> Ascii.eqb "/"%char c = false ->
  Str.startswith "/" name = false ->
  posixpath.join2 x name = x ++ "/" ++ name.
Proof.
  intros Hx Hc Hname. unfold posixpath.join2. rewrite Hname, Hx.
  assert (Hne : Str.is_empty x = false)
    by (destruct x; [discriminate Hx | reflexivity]).
  rewrite Hne. unfold Str.startswith. cbn [String.prefix orb].
  destruct (ascii_dec "/" c) as [E|_]; [|reflexivity].
  apply Ascii.eqb_neq in Hc. contradiction.
Qed.

(** X16: the two ways [main] relates the repository root and the manifest
    path agree: for a root that does not end with a slash, the third
    parent directory of [infra/config/recipes.cfg] joined under the root
    is the root. *)
Theorem repo_root_round_trip (repo_root : string) :
  Str.startswith "/" (Str.rev repo_root) = false ->
  posixpath.dirname
    (posixpath.dirname
       (posixpath.dirname
          (posixpath.join repo_root ["infra"; "config"; "recipes.cfg"]))) =
  repo_root.
Proof.
  intros Hend.
  destruct (Str.rev repo_root) as [|c x'] eqn:Hrev.
  { assert (repo_root = EmptyString) as ->
      by (rewrite <- (rev_rev repo_root), Hrev; reflexivity).
    reflexivity. }
  assert (Hc : Ascii.eqb "/"%char c = false).
  { unfold Str.startswith in Hend. cbn [String.prefix] in Hend.
    destruct (ascii_dec "/" c) as [<-|Hn].
    - destruct x'; discriminate.
    - now apply Ascii.eqb_neq. }
  set (d1 := repo_root ++ "/" ++ "infra").
  set (d2 := d1 ++ "/" ++ "config").
  assert (E1 : Str.rev d1 = String "a" (Str.rev (repo_root ++ "/infr"))).
  { subst d1. rewrite <- rev_last. f_equal. now rewrite str_app_assoc. }
  assert (E2 : Str.rev d2 = String "g" (Str.rev (d1 ++ "/confi"))).
  { subst d2. rewrite <- rev_last. f_equal. now rewrite str_app_assoc. }
  unfold posixpath.join. cbn [fold_left].
  rewrite (join2_under repo_root "infra" Hrev Hc eq_refl). fold d1.
  rewrite (join2_under d1 "config" E1 eq_refl eq_refl). fold d2.
  rewrite (join2_under d2 "recipes.cfg" E2 eq_refl eq_refl).
  rewrite (dirname_under d2 "recipes.cfg" E2 eq_refl eq_refl).
  subst d2.
  rewrite (dirname_under d1 "config" E1 eq_refl eq_refl).
  subst d1.
  apply (dirname_under repo_root "infra" Hrev Hc eq_refl).
Qed.

(** * Where [main] looks for the manifest *)

(** The end of line that [git] prints after the toplevel directory. *)
Definition newline : string := String (ascii_of_nat 10) EmptyString.

Section MainLocation.
Context {W : Type} {L : Library} {Sy : System W}.

(** What [parse_args] returns for the values [argparse] collected. *)
Lemma parse_args_scanned (args : list string) (s : State W)
  (project_override : option (list string)) (package : option string) :
  argparse_scan args = Some (project_override, package) ->
  parse_args args s =
  (Ok (option_map (Str.drop (String.length PREFIX))
         (find (Str.startswith PREFIX) (or_empty project_override)),
       option_map (posixpath.abspath (os_getcwd (world s))) package), s).
Proof.
  intros Hscan. unfold parse_args. rewrite Hscan.
  unfold Mon.bind, Mon.ask, Mon.ret.
  destruct (find (Str.startswith PREFIX) (or_empty project_override));
    reflexivity.
Qed.

(** [main_resolve] once the required binaries are found and [argparse]
    has accepted the command line. *)
Lemma main_resolve_located (st : State W)
  (project_override : option (list string)) (package : option string) :
  shutil_which GIT (world st) = true ->
  shutil_which CIPD (world st) = true ->
  argparse_scan (List.tl (sys_argv (world st))) = Some (project_override, package) ->
  let args := List.tl (sys_argv (world st)) in
  let override :=
    option_map (Str.drop (String.length PREFIX))
      (find (Str.startswith PREFIX) (or_empty project_override)) in
  let st0 :=
    if existsb (String.eqb "--verbose") (sys_argv (world st))
    then snd (Mon.setLevel INFO st) else st in
  main_resolve st =
  match
    locate (option_map (posixpath.abspath (os_getcwd (world st))) package) args st0
  with
  | (Ok (repo_root, recipes_cfg_path, args'), st1) =>
      (Ok (override, repo_root, recipes_cfg_path, args'), st1)
  | (Raise e, st1) => (Raise e, st1)
  end.
Proof.
  intros Hgit Hcipd Hscan args override st0.
  unfold main_resolve. unfold Mon.bind at 1 2. unfold Mon.ask at 1.
  rewrite require_binaries_run.
  assert (Hfind : find (fun b => negb (shutil_which b (world st)))
                    (REQUIRED_BINARIES (git_hashes_first (world st))) = None).
  { unfold REQUIRED_BINARIES.
    destruct (git_hashes_first (world st)); cbn [find];
      rewrite Hgit, Hcipd; reflexivity. }
  rewrite Hfind. unfold Mon.bind at 1. unfold Mon.ask at 1.
  unfold Mon.bind at 1.
  assert (Hlevel :
            (if existsb (String.eqb "--verbose") (sys_argv (world st))
             then Mon.setLevel INFO else Mon.ret tt) st = (Ok tt, st0)).
  { subst st0. destruct (existsb _ (sys_argv (world st))); reflexivity. }
  rewrite Hlevel. unfold Mon.bind at 1.
  assert (Hw : world st0 = world st).
  { subst st0. destruct (existsb _ (sys_argv (world st))); reflexivity. }
  fold args. rewrite (parse_args_scanned args st0 Hscan). rewrite Hw.
  unfold Mon.bind.
  destruct (locate _ args st0) as [[[[root cfg] args']|e] st1]; reflexivity.
Qed.

Lemma join_newline (top : string) :
  posixpath.join (top ++ newline) ["infra"; "config"; "recipes.cfg"] =
  top ++ newline ++ "/infra/config/recipes.cfg".
Proof.
  unfold posixpath.join. cbn [fold_left].
  assert (E0 : Str.rev (top ++ newline) = String (ascii_of_nat 10) (Str.rev top))
    by apply rev_last.
  rewrite (join2_under (top ++ newline) "infra" E0 eq_refl eq_refl).
  set (d1 := (top ++ newline) ++ "/" ++ "infra").
  assert (E1 : Str.rev d1 = String "a" (Str.rev ((top ++ newline) ++ "/infr"))).
  { subst d1.
    change ("/" ++ "infra") with ("/infr" ++ "a").
    rewrite <- str_app_assoc. apply rev_last. }
  rewrite (join2_under d1 "config" E1 eq_refl eq_refl).
  set (d2 := d1 ++ "/" ++ "config").
  assert (E2 : Str.rev d2 = String "g" (Str.rev (d1 ++ "/confi"))).
  { subst d2.
    change ("/" ++ "config") with ("/confi" ++ "g").
    rewrite <- str_app_assoc. apply rev_last. }
  rewrite (join2_under d2 "recipes.cfg" E2 eq_refl eq_refl).
  subst d2 d1. rewrite !str_app_assoc. reflexivity.
Qed.

(** C10: with [git] and [cipd] on the search path and a command line
    that [argparse] accepts. Without [--package], [main] asks [git] for
    the toplevel directory and takes what it prints as the repository
    root, with the end of line that follows the path: the manifest path is
    [infra/config/recipes.cfg] under a directory of that name, not under
    the toplevel, and when no such file can be opened [main] ends with
    the error of [open], after that one call, and hands nothing over.
    With [--package], no call is made to find the root: [checkout_engine]
    gets the third parent directory of the absolute manifest path as the
    root, and when it returns and the runtime is found and started, it is
    started with the arguments of the command line, unchanged, after
    [-u] and the engine's entry point. *)
Theorem main_locates_manifest (st : State W)
  (project_override : option (list string)) (package : option string) :
  shutil_which GIT (world st) = true ->
  shutil_which CIPD (world st) = true ->
  argparse_scan (List.tl (sys_argv (world st))) = Some (project_override, package) ->
  let args := List.tl (sys_argv (world st)) in
  let override :=
    option_map (Str.drop (String.length PREFIX))
      (find (Str.startswith PREFIX) (or_empty project_override)) in
  let st0 :=
    if existsb (String.eqb "--verbose") (sys_argv (world st))
    then snd (Mon.setLevel INFO st) else st in
  (package = None ->
   forall out w1 top,
     run_process (git_toplevel (world st)) (world st) = (Exited 0 out, w1) ->
     bytes_decode out = Some (top ++ newline) ->
     let recipes_cfg_path := top ++ newline ++ "/infra/config/recipes.cfg" in
     fst (main_resolve st) =
       Ok (override, top ++ newline, recipes_cfg_path,
           "--package" :: recipes_cfg_path :: args) /\
     forall what,
       open_json recipes_cfg_path w1 = CannotOpen what ->
       fst (main st) = Raise (OSError what) /\
       events (snd (main st)) =
         (events st ++ [Ran (git_toplevel (world st)) 0])%list)
  /\
  (forall v,
      package = Some v ->
      let recipes_cfg_path := posixpath.abspath (os_getcwd (world st)) v in
      let repo_root :=
        posixpath.dirname (posixpath.dirname (posixpath.dirname recipes_cfg_path)) in
      forall engine_path py3_only st2,
        checkout_engine override repo_root recipes_cfg_path st0 =
          (Ok (engine_path, py3_only), st2) ->
        let file := chosen_vpython py3_only (world st2) in
        let argv :=
          file :: "-u" :: posixpath.join engine_path ["recipe_engine"; "main.py"]
            :: args in
        shutil_which file (world st2) = true ->
        os_execvp file argv (world st2) = None ->
        main st = (Ok (Replaced file argv), st2)).
Proof.
  intros Hgit Hcipd Hscan args override st0.
  pose proof (main_resolve_located st Hgit Hcipd Hscan) as Hres.
  cbv zeta in Hres. fold args override st0 in Hres.
  assert (Hw : world st0 = world st).
  { subst st0. destruct (existsb _ (sys_argv (world st))); reflexivity. }
  assert (He : events st0 = events st).
  { subst st0. destruct (existsb _ (sys_argv (world st))); reflexivity. }
  split.
  - intros -> out w1 top Hrun Hdec cfg.
    cbn [option_map] in Hres.
    unfold locate in Hres. cbn [no_path negb] in Hres.
    unfold Mon.bind, Mon.ask, Mon.ret, Mon.raise in Hres.
    rewrite git_output_toplevel in Hres. cbv zeta in Hres.
    rewrite Hw in Hres. fold (git_toplevel (world st)) in Hres.
    rewrite Hrun in Hres. cbn [Z.eqb] in Hres. rewrite Hdec in Hres.
    rewrite join_newline in Hres. fold cfg in Hres.
    split; [now rewrite Hres|].
    intros what Hopen.
    assert (Hmain : main st =
                    (Raise (OSError what),
                     ran st0 (git_toplevel (world st)) w1
                       (Ran (git_toplevel (world st)) 0))).
    { unfold main, main_try. unfold Mon.bind at 1. rewrite Hres.
      unfold Mon.bind at 1. unfold checkout_engine. unfold Mon.bind at 1.
      unfold parse, Mon.bind, Mon.ask. cbn [world ran].
      rewrite Hopen. reflexivity. }
    rewrite Hmain. cbn [fst snd events ran]. now rewrite He.
  - intros v -> cfg root ep py3 st2 Hco file argv Hwhich Hexec.
    cbn [option_map] in Hres.
    unfold locate in Hres. cbn [no_path the_path] in Hres.
    rewrite abspath_not_empty in Hres. cbn [negb] in Hres.
    unfold Mon.ret in Hres. fold cfg root in Hres.
    unfold main, main_try. unfold Mon.bind at 1. rewrite Hres.
    unfold Mon.bind at 1. rewrite Hco.
    unfold main_launch, Mon.bind, _is_on_path.
    cbv beta zeta. unfold Mon.ask, Mon.raise, Mon.ret. cbv beta.
    fold (chosen_vpython py3 (world st2)). fold file.
    rewrite Hwhich. cbn [negb].
    change IS_WIN with false. cbv beta iota.
    fold argv. rewrite Hexec. reflexivity.
Qed.

End MainLocation.

(** * Every child process is logged *)

(** The events hold a start of the call [c], whether it ran or not. *)
Definition started (c : Call) (es : list Event) : Prop :=
  (exists code, In (Ran c code) es) \/ In (RanNot c) es.

(** The record that [logging.info('Running %r', argv)] leaves for the
    command line of [c]. *)
Definition announcement (c : Call) (r : LogRecord) : Prop :=
  exists a, r = mkLog INFO "Running %r" [AList a] /\ strings_of a = Ok (argv c).

(** A computation that only adds to the events and to the log, and that
    adds a start to the events only with its announcement in the log. *)
Definition announced {W A} (m : M W A) : Prop :=
  forall st, exists dl de,
    logs (snd (m st)) = (logs st ++ dl)%list /\
    events (snd (m st)) = (events st ++ de)%list /\
    forall c, started c de -> exists r, In r dl /\ announcement c r.

Create HintDb announced.

Section Announced.
Context {W : Type} {L : Library} {Sy : System W}.

Lemma started_nil (c : Call) : started c [] -> False.
Proof. intros [[code []]|[]]. Qed.

Lemma started_app (c : Call) (a b : list Event) :
  started c (a ++ b) -> started c a \/ started c b.
Proof.
  intros [[code H]|H]; apply in_app_or in H; destruct H as [H|H].
  - left. left. eauto.
  - right. left. eauto.
  - left. now right.
  - right. now right.
Qed.

Lemma announced_same {A} (m : M W A) :
  (forall st, logs (snd (m st)) = logs st /\ events (snd (m st)) = events st) ->
  announced m.
Proof.
  intros H st. destruct (H st) as [Hl He].
  exists [], []. rewrite Hl, He, !app_nil_r.
  split; [reflexivity|]. split; [reflexivity|].
  intros c Hc. destruct (started_nil Hc).
Qed.

Lemma announced_ret {A} (a : A) : announced (W:=W) (Mon.ret a).
Proof. apply announced_same. now intros st. Qed.

Lemma announced_raise {A} (e : exn) : announced (W:=W) (A:=A) (Mon.raise e).
Proof. apply announced_same. now intros st. Qed.

Lemma announced_lift {A} (r : result A) : announced (W:=W) (Mon.lift r).
Proof. apply announced_same. now intros st. Qed.

Lemma announced_ask {A} (f : W -> A) : announced (Mon.ask f).
Proof. apply announced_same. now intros st. Qed.

Lemma announced_setLevel l : announced (W:=W) (Mon.setLevel l).
Proof. apply announced_same. now intros st. Qed.

Lemma announced_ignore_signal s : announced (W:=W) (Mon.ignore_signal s).
Proof. apply announced_same. now intros st. Qed.

Lemma announced_print s : announced (W:=W) (Mon.print s).
Proof. apply announced_same. now intros st. Qed.

Lemma announced_log l f a : announced (W:=W) (Mon.log l f a).
Proof.
  intros st. exists [mkLog l f a], []. cbn. rewrite app_nil_r.
  split; [reflexivity|]. split; [reflexivity|].
  intros c Hc. destruct (started_nil Hc).
Qed.

Lemma announced_act {A} (f : W -> A * W) : announced (Mon.act f).
Proof.
  apply announced_same. intros st. unfold Mon.act.
  now destruct (f (world st)).
Qed.

Lemma announced_unlinked (path : string) (o : remove_outcome) :
  announced (W:=W) (Mon.record (Unlinked path o)).
Proof.
  intros st. exists [], [Unlinked path o]. cbn. rewrite app_nil_r.
  split; [reflexivity|]. split; [reflexivity|].
  intros c [[code [H|[]]]|[H|[]]]; discriminate H.
Qed.

Lemma announced_bind {A B} (m : M W A) (k : A -> M W B) :
  announced m -> (forall a, announced (k a)) -> announced (Mon.bind m k).
Proof.
  intros Hm Hk st. unfold Mon.bind.
  destruct (Hm st) as (dl & de & Hl & He & Hc).
  destruct (m st) as [[a|e] st1]; cbn [snd] in *.
  - destruct (Hk a st1) as (dl' & de' & Hl' & He' & Hc').
    exists (dl ++ dl')%list, (de ++ de')%list.
    rewrite Hl', He', Hl, He, !app_assoc.
    split; [reflexivity|]. split; [reflexivity|].
    intros c Hs. apply started_app in Hs. destruct Hs as [Hs|Hs].
    + destruct (Hc c Hs) as (r & Hr & Ha). exists r. split; [|exact Ha].
      apply in_or_app. now left.
    + destruct (Hc' c Hs) as (r & Hr & Ha). exists r. split; [|exact Ha].
      apply in_or_app. now right.
  - exists dl, de. auto.
Qed.

Lemma announced_except {A} (m h : M W A) :
  announced m -> announced h -> announced (Mon.except_CalledProcessError m h).
Proof.
  intros Hm Hh st.
  pose proof (@announced_bind A A m (fun _ => h) Hm (fun _ => Hh) st) as Hb.
  unfold Mon.except_CalledProcessError. unfold Mon.bind in Hb.
  destruct (Hm st) as (dl & de & Hl & He & Hc).
  destruct (m st) as [[a|e] st1]; cbn [snd] in *;
    [exists dl, de; auto|].
  destruct e; try (exists dl, de; auto; fail).
  destruct (Hh st1) as (dl' & de' & Hl' & He' & Hc').
  exists (dl ++ dl')%list, (de ++ de')%list.
  rewrite Hl', He', Hl, He, !app_assoc.
  split; [reflexivity|]. split; [reflexivity|].
  intros c Hs. apply started_app in Hs. destruct Hs as [Hs|Hs].
  - destruct (Hc c Hs) as (r & Hr & Ha). exists r. split; [|exact Ha].
    apply in_or_app. now left.
  - destruct (Hc' c Hs) as (r & Hr & Ha). exists r. split; [|exact Ha].
    apply in_or_app. now right.
Qed.

(** The one place where a process is started: after the log call, with
    the strings of the logged command line. *)
Lemma announced_run {A} (a : list json) (dir : option string) (out err : sink)
  (k : list string -> Z * string -> M W A) :
  (forall s r, announced (k s r)) ->
  announced
    (Mon.bind (Mon.log INFO "Running %r" [AList a])
       (fun _ => Mon.bind (Mon.lift (strings_of a))
          (fun s => Mon.bind (run_child (mkCall s dir out err)) (k s)))).
Proof.
  intros Hk st.
  unfold Mon.bind, Mon.log, Mon.lift. cbv beta iota.
  destruct (strings_of a) as [s|e] eqn:Es.
  - set (c := mkCall s dir out err).
    set (st0 := mkState _ _ _ _ _ _).
    assert (Hrun : exists r' e1 w,
               run_child c st0 =
                 (r', mkState w (events st ++ [e1]) (logs st ++ [mkLog INFO "Running %r" [AList a]])
                        (printed st) (root_level st) (ignored_signals st)) /\
               forall c', started c' [e1] -> c' = c).
    { unfold run_child, Mon.bind, Mon.act, Mon.record, Mon.ret, Mon.raise.
      subst st0. cbn [world events logs printed root_level ignored_signals].
      destruct (run_process c (world st)) as [[code o|what] w].
      - exists (Ok (code, o)), (Ran c code), w. split; [reflexivity|].
        intros c' [[code' [H|[]]]|[H|[]]]; [|discriminate H].
        now injection H as -> _.
      - exists (Raise (OSError what)), (RanNot c), w. split; [reflexivity|].
        intros c' [[code' [H|[]]]|[H|[]]]; [discriminate H|].
        now injection H as ->. }
    destruct Hrun as (r' & e1 & w & Hrun & Hone).
    rewrite !Hrun.
    assert (Hmine : forall c', started c' [e1] ->
              exists r, In r [mkLog INFO "Running %r" [AList a]] /\ announcement c' r).
    { intros c' Hs. rewrite (Hone c' Hs).
      exists (mkLog INFO "Running %r" [AList a]). split; [now left|].
      exists a. split; [reflexivity|exact Es]. }
    destruct r' as [r'|e']; cbv beta iota.
    + match goal with |- context [k s r' ?s1] => destruct (Hk s r' s1) as (dl' & de' & Hl' & He' & Hc') end.
      cbn [logs events] in Hl', He'.
      exists ([mkLog INFO "Running %r" [AList a]] ++ dl')%list, ([e1] ++ de')%list.
      rewrite Hl', He', !app_assoc.
      split; [reflexivity|]. split; [reflexivity|].
      intros c' Hs. apply started_app in Hs. destruct Hs as [Hs|Hs].
      * destruct (Hmine c' Hs) as (r & Hr & Ha). exists r. split; [|exact Ha].
        apply in_or_app. now left.
      * destruct (Hc' c' Hs) as (r & Hr & Ha). exists r. split; [|exact Ha].
        apply in_or_app. now right.
    + exists [mkLog INFO "Running %r" [AList a]], [e1]. cbn [snd logs events].
      split; [reflexivity|]. split; [reflexivity|]. exact Hmine.
  - exists [mkLog INFO "Running %r" [AList a]], []. cbn. rewrite app_nil_r.
    split; [reflexivity|]. split; [reflexivity|].
    intros c Hc. destruct (started_nil Hc).
Qed.

#[local] Hint Resolve announced_ret announced_raise announced_lift announced_ask
  announced_setLevel announced_ignore_signal announced_print announced_log
  announced_act announced_unlinked : announced.

Ltac announced :=
  repeat first
    [ solve [auto with announced]
    | apply announced_run; intros
    | apply announced_bind; [|intros]
    | apply announced_except
    | match goal with
      | |- announced (match ?x with _ => _ end) => destruct x
      | |- announced (if ?b then _ else _) => destruct b
      end ].

Lemma announced_parse r p : announced (parse r p).
Proof. unfold parse. announced. Qed.

Lemma announced_git_check_call a d o e : announced (_git_check_call a d o e).
Proof. unfold _git_check_call, subprocess_check_call. announced. Qed.

Lemma announced_git_output a d : announced (_git_output a d).
Proof. unfold _git_output, subprocess_check_output. announced. Qed.

Lemma announced_subprocess_call a : announced (_subprocess_call a).
Proof. unfold _subprocess_call, subprocess_call. announced. Qed.
#[local] Hint Resolve announced_parse announced_git_check_call announced_git_output
  announced_subprocess_call : announced.

Lemma announced_reset_and_clean p r : announced (reset_and_clean p r).
Proof. unfold reset_and_clean. announced. Qed.
#[local] Hint Resolve announced_reset_and_clean : announced.

Lemma announced_managed_checkout d r : announced (managed_checkout d r).
Proof. unfold managed_checkout. announced. Qed.
#[local] Hint Resolve announced_managed_checkout : announced.

Lemma announced_checkout_engine e r p : announced (checkout_engine e r p).
Proof. unfold checkout_engine. announced. Qed.

Lemma announced_parse_args a : announced (parse_args a).
Proof. unfold parse_args. announced. Qed.

Lemma announced_locate p a : announced (locate p a).
Proof. unfold locate. announced. Qed.

Lemma announced_require_binaries l : announced (require_binaries l).
Proof.
  induction l as [|b l IH]; cbn [require_binaries]; [announced|].
  unfold _is_on_path. announced.
Qed.
#[local] Hint Resolve announced_checkout_engine announced_parse_args announced_locate
  announced_require_binaries : announced.

Lemma announced_main_resolve : announced main_resolve.
Proof. unfold main_resolve. announced. Qed.

Lemma announced_main_launch e p a : announced (main_launch e p a).
Proof. unfold main_launch, _is_on_path. announced. Qed.
#[local] Hint Resolve announced_main_resolve announced_main_launch : announced.




End Announced.

(** * More concrete runs *)

(** A world that answers each call with the next status of a script. *)
Module Script.

Definition World : Type := list Z.

Definition run (c : Call) (w : World) : proc_outcome * World :=
  match w with
  | code :: rest => (Exited code EmptyString, rest)
  | [] => (NotStarted "no status left", [])
  end.

#[global] Instance system : System World := {
  open_json := fun _ _ => Decoded (JObj Runs.client_manifest);
  run_process := run;
  os_remove := fun _ w => (RemoveDone, w);
  shutil_which := fun _ _ => true;
  os_getenv := fun _ _ => None;
  os_getcwd := fun _ => "/r";
  sys_argv := fun _ => ["recipes.py"];
  script_file := fun _ => "/r/recipes.py";
  git_hashes_first := fun _ => true;
  os_execvp := fun _ _ _ => None
}.

Definition start (w : World) : State World := mkState w [] [] [] WARNING [].

End Script.

Module MoreRuns.
Import Double Runs.

(** A client whose recipes live at an absolute path. *)
Definition absolute_manifest : dict :=
  [("api_version", JInt 2);
   ("repo_name", JStr "build");
   ("recipes_path", JStr "/srv/recipes");
   ("deps", JObj [("recipe_engine", JObj engine_entry)])].

(** A client whose entry for the engine holds one key too many. *)
Definition typed_entry : dict :=
  (engine_entry ++ [("repo_type", JStr "GIT")])%list.

Definition typed_manifest : dict :=
  [("api_version", JInt 2);
   ("repo_name", JStr "build");
   ("deps", JObj [("recipe_engine", JObj typed_entry)])].

(** A client pinning an engine that is a local directory. *)
Definition local_entry : dict := [("url", JStr "file:///src/recipes-py")].

Definition local_manifest : dict :=
  [("api_version", JInt 2);
   ("repo_name", JStr "build");
   ("deps", JObj [("recipe_engine", JObj local_entry)])].

Definition local_pin : EngineDep :=
  mkEngineDep (JStr "file:///src/recipes-py") (JStr EmptyString)
    (JStr "refs/heads/main").

Definition world_of (manifest : dict) : World :=
  world_with manifest all_bins ["recipes.py"; "--package"; cfg]
    ["A"; "B"] [] "A" 1%nat NoLock.

End MoreRuns.

Import MoreRuns.

Lemma parse_branch_qualified_witness :
  fst (parse "/r" cfg (start w_fast)) = Ok (Some pin, JStr "/r/infra", JBool false) /\
  exists b, branch pin = JStr b /\ Str.startswith "refs/" b = true.
Proof.
  assert (H : fst (parse "/r" cfg (start w_fast)) =
              Ok (Some pin, JStr "/r/infra", JBool false))
    by (vm_compute; reflexivity).
  split; [exact H|].
  exact (parse_branch_qualified "/r" cfg (start w_fast) H).
Defined.

Lemma parse_dependency_fields_witness :
  fst (parse "/r" cfg (start w_fast)) = Ok (Some pin, JStr "/r/infra", JBool false) /\
  exists pb deps engine declared,
    open_json cfg (world (start w_fast)) = Decoded (JObj pb) /\
    Py.lookup pb "deps" = Some (JObj deps) /\
    Py.lookup deps "recipe_engine" = Some (JObj engine) /\
    Py.lookup engine "url" = Some (url pin) /\
    revision pin = Py.get engine "revision" (JStr EmptyString) /\
    Py.get pb "recipes_path" (JStr EmptyString) = JStr declared /\
    JStr "/r/infra" = JStr (posixpath.join "/r" [declared]) /\
    JBool false = Py.get pb "py3_only" (JBool false) /\
    forall key value,
      In (key, value) engine ->
      key = "url" \/ key = "revision" \/ key = "branch".
Proof.
  assert (H : fst (parse "/r" cfg (start w_fast)) =
              Ok (Some pin, JStr "/r/infra", JBool false))
    by (vm_compute; reflexivity).
  split; [exact H|].
  exact (parse_dependency_fields "/r" cfg (start w_fast) H).
Defined.

Lemma parse_recipes_path_absolute_witness :
  let st := start (world_of absolute_manifest) in
  fst (parse "/r" cfg st) = Ok (Some pin, JStr "/srv/recipes", JBool false) /\
  JStr "/srv/recipes" = JStr "/srv/recipes".
Proof.
  intros st.
  assert (H : fst (parse "/r" cfg st) =
              Ok (Some pin, JStr "/srv/recipes", JBool false))
    by (vm_compute; reflexivity).
  split; [exact H|].
  exact (parse_recipes_path_absolute "/r" cfg st (pb:=absolute_manifest)
           (declared:="/srv/recipes") H eq_refl eq_refl eq_refl).
Defined.

Lemma parse_extra_key_witness :
  let st := start (world_of typed_manifest) in
  In ("repo_type", JStr "GIT") typed_entry /\
  fst (parse "/r" cfg st) = Raise TypeError.
Proof.
  intros st.
  assert (Hin : In ("repo_type", JStr "GIT") typed_entry)
    by (right; right; right; left; reflexivity).
  split; [exact Hin|].
  assert (Hv : version_ok typed_manifest)
    by (exists (JInt 2); split; reflexivity).
  assert (Hd : dependent typed_manifest)
    by (exists (JStr "build"); split; reflexivity).
  refine (@parse_extra_key _ _ "/r" cfg st typed_manifest
            [("recipe_engine", JObj typed_entry)] typed_entry
            "main" EmptyString "repo_type" (JStr "GIT")
            eq_refl Hv Hd eq_refl eq_refl eq_refl eq_refl eq_refl Hin _ _ _);
    discriminate.
Defined.


Lemma parse_exceptions_witness :
  let e := MalformedRecipesCfg "unknown version 1" cfg in
  open_json cfg (world (start w_old)) = Decoded (JObj old_manifest) /\
  fst (parse "/r" cfg (start w_old)) = Raise e /\
  ((exists msg, e = MalformedRecipesCfg msg cfg) \/
   e = TypeError \/ e = AttributeError \/ e = ValueError \/ e = OverflowError).
Proof.
  intros e.
  assert (Hopen : open_json cfg (world (start w_old)) = Decoded (JObj old_manifest))
    by (vm_compute; reflexivity).
  assert (H : fst (parse "/r" cfg (start w_old)) = Raise e)
    by (vm_compute; reflexivity).
  split; [exact Hopen|]. split; [exact H|].
  exact (parse_exceptions "/r" cfg (start w_old) Hopen H).
Defined.

Lemma file_url_short_circuit_witness :
  let st := start (world_of local_manifest) in
  fst (parse "/r" cfg st) = Ok (Some local_pin, JStr "/r/", JBool false) /\
  checkout_engine None "/r" cfg st = (Ok ("/src/recipes-py", JBool false), st).
Proof.
  intros st.
  assert (H : fst (parse "/r" cfg st) =
              Ok (Some local_pin, JStr "/r/", JBool false))
    by (vm_compute; reflexivity).
  split; [exact H|].
  exact (file_url_short_circuit None "/r" cfg st (u:="file:///src/recipes-py")
           eq_refl H eq_refl eq_refl eq_refl).
Defined.

Lemma self_hosting_checkout_witness :
  fst (parse "/r" cfg (start w_self)) = Ok (None, JStr "recipes", JBool true) /\
  checkout_engine (Some "/over") "/r" cfg (start w_self) =
    (Ok ("/r/recipes", JBool true), start w_self).
Proof.
  assert (H : fst (parse "/r" cfg (start w_self)) =
              Ok (None, JStr "recipes", JBool true))
    by (vm_compute; reflexivity).
  split; [exact H|].
  exact (self_hosting_checkout (Some "/over") "/r" cfg (start w_self) H).
Defined.

Lemma checkout_failure_origin_witness :
  let run := checkout_engine None "/r" cfg (start w_stuck) in
  fst run = Raise (CalledProcessError 128 (argv (git_reset checkout "B"))) /\
  128 <> 0 /\
  exists sub rest call pre,
    argv (git_reset checkout "B") = GIT :: sub :: rest /\
    In sub ["init"; "fetch"; "reset"; "clean"] /\
    argv call = argv (git_reset checkout "B") /\
    events (snd run) = (pre ++ [Ran call 128])%list.
Proof.
  intros run.
  assert (Hrun : checkout_engine None "/r" cfg (start w_stuck) =
                 (Raise (CalledProcessError 128 (argv (git_reset checkout "B"))),
                  snd run))
    by (vm_compute; reflexivity).
  assert (Hparse : fst (parse "/r" cfg (start w_stuck)) =
                   Ok (Some pin, JStr "/r/infra", JBool false))
    by (vm_compute; reflexivity).
  split; [vm_compute; reflexivity|].
  exact (checkout_failure_origin None "/r" cfg (start w_stuck)
           (u:="https://example.org/recipes-py.git")
           eq_refl Hparse eq_refl eq_refl Hrun).
Defined.

Lemma failed_fetch_is_fatal_witness :
  let st := Script.start [0; 128; 1] in
  let run := checkout_engine None "/r" cfg st in
  fst run =
    Raise (CalledProcessError 1
             (argv (git_fetch checkout "https://example.org/recipes-py.git"
                      "refs/heads/main"))) /\
  events (snd run) =
    [Ran (git_init checkout) 0; Ran (git_verify checkout "B") 128;
     Ran (git_fetch checkout "https://example.org/recipes-py.git"
            "refs/heads/main") 1] /\
  world (snd run) = [].
Proof.
  intros st run.
  assert (Hparse : fst (parse "/r" cfg st) =
                   Ok (Some pin, JStr "/r/infra", JBool false))
    by (vm_compute; reflexivity).
  assert (Hc : 128 <> 0) by discriminate.
  assert (Hn : 1 <> 0) by discriminate.
  exact (failed_fetch_is_fatal None "/r" cfg st
           (u:="https://example.org/recipes-py.git") (b:="refs/heads/main")
           (o1:=EmptyString) (o2:=EmptyString) (o3:=EmptyString)
           (w1:=[128; 1]) (w2:=[1]) (w3:=[])
           eq_refl Hparse eq_refl eq_refl eq_refl eq_refl eq_refl Hc eq_refl Hn).
Defined.

Lemma main_launch_handoff_witness :
  let st := start w_fast in
  main_launch checkout (JBool false) ["run"] st =
    (Ok (Replaced "vpython"
           ["vpython"; "-u";
            "/r/infra/.recipe_deps/recipe_engine/recipe_engine/main.py"; "run"]),
     st) /\
  shutil_which "vpython" (world st) = true.
Proof.
  intros st.
  assert (H : main_launch checkout (JBool false) ["run"] st =
              (Ok (Replaced "vpython"
                     ["vpython"; "-u";
                      "/r/infra/.recipe_deps/recipe_engine/recipe_engine/main.py";
                      "run"]), st))
    by (vm_compute; reflexivity).
  split; [exact H|].
  exact (proj1 (proj2 (proj2 (main_launch_handoff checkout (JBool false) ["run"] st H)))).
Defined.

Lemma required_binaries_order_witness :
  shutil_which GIT (world (start w_no_cipd)) = true /\
  require_binaries (REQUIRED_BINARIES true) (start w_no_cipd) =
  require_binaries (REQUIRED_BINARIES false) (start w_no_cipd).
Proof.
  assert (H : shutil_which GIT (world (start w_no_cipd)) = true) by reflexivity.
  split; [exact H|].
  exact (required_binaries_order (start w_no_cipd) (or_introl H)).
Defined.

Lemma parse_args_package_absolute_witness :
  let st := start w_fast in
  parse_args ["--package"; "infra/config/recipes.cfg"] st = (Ok (None, Some cfg), st) /\
  Str.is_empty cfg = false /\ posixpath.isabs cfg = true.
Proof.
  intros st.
  assert (H : parse_args ["--package"; "infra/config/recipes.cfg"] st =
              (Ok (None, Some cfg), st))
    by (vm_compute; reflexivity).
  split; [exact H|].
  destruct (parse_args_package_absolute
              ["--package"; "infra/config/recipes.cfg"] st H) as [Hne Habs].
  split; [exact Hne | exact (Habs eq_refl)].
Defined.

Lemma malformed_message_plain_path_witness :
  all_plain cfg = true /\
  str_of_exn (MalformedRecipesCfg "unknown version 1" cfg) =
  "malformed recipes.cfg: unknown version 1: '/r/infra/config/recipes.cfg'".
Proof.
  assert (H : all_plain cfg = true) by (vm_compute; reflexivity).
  split; [exact H|].
  exact (malformed_message_plain_path "unknown version 1" cfg H).
Defined.

Lemma repo_root_round_trip_witness :
  posixpath.join "/r" ["infra"; "config"; "recipes.cfg"] = cfg /\
  posixpath.dirname (posixpath.dirname (posixpath.dirname cfg)) = "/r".
Proof.
  split; [reflexivity|].
  exact (repo_root_round_trip "/r" eq_refl).
Defined.


Lemma main_returns_only_to_report_witness :
  let st := start w_no_cipd in
  IS_WIN = false /\
  fst (main st) = Ok (Returned 1) /\
  exists line, printed (snd (main st)) = [line].
Proof.
  intros st.
  assert (Hposix : IS_WIN = false) by reflexivity.
  assert (E : fst (main st) = Ok (Returned 1)) by (vm_compute; reflexivity).
  split; [exact Hposix|]. split; [exact E|].
  pose proof (main_returns_only_to_report st Hposix) as H.
  rewrite E in H. exact (proj2 H).
Defined.

Lemma main_locates_manifest_witness :
  (let st := start w_bare in
   let recipes_cfg_path := "/r" ++ newline ++ "/infra/config/recipes.cfg" in
   open_json "/r/infra/config/recipes.cfg" (world st) = Decoded (JObj client_manifest) /\
   fst (main_resolve st) =
     Ok (Some "/e1", "/r" ++ newline, recipes_cfg_path,
         "--package" :: recipes_cfg_path :: List.tl (sys_argv (world st))) /\
   fst (main st) = Raise (OSError "No such file or directory") /\
   events (snd (main st)) = [Ran (git_toplevel (world st)) 0]) /\
  (let st := start w_fast in
   main st =
     (Ok (Replaced "vpython"
            ["vpython"; "-u";
             "/r/infra/.recipe_deps/recipe_engine/recipe_engine/main.py";
             "--package"; cfg]),
      snd (checkout_engine None "/r" cfg st))).
Proof.
  split.
  - intros st recipes_cfg_path.
    split; [vm_compute; reflexivity|].
    assert (Hgit : shutil_which GIT (world st) = true) by (vm_compute; reflexivity).
    assert (Hcipd : shutil_which CIPD (world st) = true) by (vm_compute; reflexivity).
    assert (Hscan : argparse_scan (List.tl (sys_argv (world st))) =
                    Some (Some ["depot_tools=/d"; "recipe_engine=/e1";
                                "recipe_engine=/e2"], None))
      by (vm_compute; reflexivity).
    assert (Hrun : run_process (git_toplevel (world st)) (world st) =
                   (Exited 0 ("/r" ++ newline), w_bare))
      by (vm_compute; reflexivity).
    assert (Hdec : bytes_decode ("/r" ++ newline) = Some ("/r" ++ newline))
      by reflexivity.
    destruct (proj1 (main_locates_manifest st Hgit Hcipd Hscan)
                eq_refl ("/r" ++ newline) w_bare "/r" Hrun Hdec)
      as [Hres Hmain].
    split; [exact Hres|].
    assert (Hopen : open_json recipes_cfg_path w_bare =
                    CannotOpen "No such file or directory")
      by (vm_compute; reflexivity).
    exact (Hmain "No such file or directory" Hopen).
  - intros st.
    assert (Hgit : shutil_which GIT (world st) = true) by (vm_compute; reflexivity).
    assert (Hcipd : shutil_which CIPD (world st) = true) by (vm_compute; reflexivity).
    assert (Hscan : argparse_scan (List.tl (sys_argv (world st))) =
                    Some (None, Some cfg))
      by (vm_compute; reflexivity).
    assert (Hco : checkout_engine None "/r" cfg st =
                  (Ok (checkout, JBool false), snd (checkout_engine None "/r" cfg st)))
      by (vm_compute; reflexivity).
    assert (Hwhich : shutil_which "vpython"
                       (world (snd (checkout_engine None "/r" cfg st))) = true)
      by (vm_compute; reflexivity).
    assert (Hexec : os_execvp "vpython"
                      ["vpython"; "-u";
                       "/r/infra/.recipe_deps/recipe_engine/recipe_engine/main.py";
                       "--package"; cfg]
                      (world (snd (checkout_engine None "/r" cfg st))) = None)
      by (vm_compute; reflexivity).
    exact (proj2 (main_locates_manifest st Hgit Hcipd Hscan)
             cfg eq_refl checkout (JBool false) _ Hco Hwhich Hexec).
Defined.
